(** * The remote control bridge of the UE5 MCP server

    A shallow embedding of [mcp-server/src/tools/editor-control.ts]:
    the HTTP client [rcFetch], the call helpers [rcCall] and
    [rcProperty], the lookup tables, and the tool handlers
    [ue5_spawn_actor], [ue5_editor_command], [ue5_batch],
    [ue5_spawn_light], [ue5_set_camera], [ue5_get_camera],
    [ue5_modify_actor], [ue5_connect], [ue5_list_actors],
    [ue5_delete_actor], [ue5_search_assets], [ue5_describe_actor] and
    [ue5_create_dynamic_material].

    Conventions of the embedding.
    - JavaScript values that travel through the bridge (request bodies,
      parsed response bodies) are terms of [value]: JSON plus
      [undefined].  Numbers are integers ([Z]): identifiers, status
      codes and the coordinates used in the examples are integral, and
      fractional numbers are outside the model.
    - An [async] function is a computation in [Async]: it reads the
      trace of requests sent so far, may send more, and either returns
      or throws an [Error] with a message.
    - The network ([fetch]), [JSON.parse] and [JSON.stringify] are
      the fields of a [Platform]: every theorem holds for every host
      behaviour and every codec.
    - Plain objects used as tables ([ENGINE_MESHES], [ACTOR_CLASSES],
      [EDITOR_COMMANDS], [LIGHT_CLASSES]) are finite maps of their own
      properties; a lookup by a free string ([resolve], the command
      handler) also finds the names inherited from [Object.prototype].
    - Strings are sequences of one-byte characters.  [length], [slice],
      [toLowerCase] and [includes] are those of JavaScript on ASCII
      text, and the statements about them say so. *)

From stdpp Require Import base option list strings gmap pretty.
From Stdlib Require Import ZArith Lia.

Local Open Scope Z_scope.

#[local] Set Warnings "-register-all".

(** ** JavaScript values *)

Inductive value : Type :=
  | JUndefined
  | JNull
  | JBool (b : bool)
  | JNum (n : Z)
  | JStr (s : string)
  | JArr (items : list value)
  | JObj (fields : list (string * value)).

(** The double quote character, for the messages that quote a name. *)
Definition dq : string := String (Ascii.ascii_of_nat 34) EmptyString.

Module JS.

(** ToBoolean. *)
Definition truthy (v : value) : bool :=
  match v with
  | JUndefined | JNull => false
  | JBool b => b
  | JNum n => negb (n =? 0)
  | JStr s => negb (String.eqb s EmptyString)
  | JArr _ | JObj _ => true
  end.

(** [a || b]. *)
Definition or (a b : value) : value := if truthy a then a else b.

(** Own-property lookup in a parsed object. *)
Fixpoint assoc (k : string) (fields : list (string * value)) : value :=
  match fields with
  | [] => JUndefined
  | (k', v) :: rest => if String.eqb k k' then v else assoc k rest
  end.

(** [v?.k]: [undefined] on [null] and [undefined]; the names read by
    the bridge ([Responses], [RequestId], [StatusCode], [status],
    [ReturnValue]) are not properties of primitives or arrays. *)
Definition opt_get (v : value) (k : string) : value :=
  match v with
  | JObj fields => assoc k fields
  | _ => JUndefined
  end.

(** [v.k]: as [v?.k], but a [TypeError] on [null] and [undefined]. *)
Definition get (v : value) (k : string) : option value :=
  match v with
  | JUndefined | JNull => None
  | _ => Some (opt_get v k)
  end.

(** [v === i] for a number [i]. *)
Definition strict_eq_num (v : value) (i : Z) : bool :=
  match v with JNum n => n =? i | _ => false end.

(** ToString, as used by template literals.  Arrays join their items
    with commas, printing [null] and [undefined] items as empty;
    integers print in decimal (below 10^21, as the model has them). *)
Fixpoint toString (v : value) : string :=
  match v with
  | JUndefined => "undefined"
  | JNull => "null"
  | JBool true => "true"
  | JBool false => "false"
  | JNum n => pretty n
  | JStr s => s
  | JArr items =>
      String.concat ","
        (map (fun x => match x with
                       | JUndefined | JNull => EmptyString
                       | _ => toString x
                       end) items)
  | JObj _ => "[object Object]"
  end.



(** The numeric value of a string of decimal digits. *)
Fixpoint digits (s : string) (acc : Z) : option Z :=
  match s with
  | EmptyString => Some acc
  | String c rest =>
      let d := Z.of_nat (Ascii.nat_of_ascii c) - 48 in
      if (0 <=? d) && (d <=? 9) then digits rest (10 * acc + d) else None
  end.

(** ToNumber on strings; [None] is [NaN].  The empty string is 0, a
    string of decimal digits with an optional minus sign is its value,
    and any other string is [NaN].  The other numeric spellings of
    JavaScript (white space around the number, a plus sign, fractions,
    exponents, hexadecimal, [Infinity]) are outside the model. *)
Definition stringToNumber (s : string) : option Z :=
  match s with
  | EmptyString => Some 0
  | String c (String _ _ as rest) =>
      if Ascii.eqb c (Ascii.ascii_of_nat 45)
      then Z.opp <$> digits rest 0
      else digits s 0
  | _ => digits s 0
  end.

(** ToNumber; objects and arrays convert through ToString. *)
Definition toNumber (v : value) : option Z :=
  match v with
  | JUndefined => None
  | JNull => Some 0
  | JBool b => Some (if b then 1 else 0)
  | JNum n => Some n
  | JStr s => stringToNumber s
  | JArr _ | JObj _ => stringToNumber (toString v)
  end.

(** [v >= n] and [v < n] against a number: false on [NaN]. *)
Definition ge_num (v : value) (n : Z) : bool :=
  match toNumber v with Some x => n <=? x | None => false end.

Definition lt_num (v : value) (n : Z) : bool :=
  match toNumber v with Some x => x <? n | None => false end.

End JS.

(** ** Asynchronous computations against the editor *)

(** What [fetch] is asked to send. *)
Record RcRequest : Type := mkRequest {
  req_url : string;
  req_method : string;
  req_body : option value
}.

(** What [fetch] resolves to: an HTTP response with its [ok] flag, its
    status and its body text, or a rejection.  A rejection whose name
    is [AbortError] is the ten second timer firing. *)
Record HttpResponse : Type := mkHttp {
  res_ok : bool;
  res_status : Z;
  res_text : string
}.

Inductive FetchOutcome : Type :=
  | Responded (res : HttpResponse)
  | AbortError
  | Rejected (message : string).

(** The Fetch standard: [Response.ok] is true exactly for the statuses
    200 to 299. *)
Definition fetch_ok_spec (res : HttpResponse) : Prop :=
  res_ok res = true <-> 200 <= res_status res < 300.

Inductive Result (A : Type) : Type :=
  | Return (a : A)
  | Throw (message : string).
Arguments Return {A} a.
Arguments Throw {A} message.

(** The state is the trace of the requests handed to [fetch] so far,
    oldest first. *)
Definition Async (A : Type) : Type :=
  list RcRequest -> Result A * list RcRequest.

Definition aret {A} (a : A) : Async A := fun tr => (Return a, tr).

Definition abind {A B} (m : Async A) (k : A -> Async B) : Async B :=
  fun tr =>
    match m tr with
    | (Return a, tr') => k a tr'
    | (Throw msg, tr') => (Throw msg, tr')
    end.

(** [try { m } catch (err) { h (err.message) }]. *)
Definition try_catch {A} (m : Async A) (h : string -> A) : Async A :=
  fun tr =>
    match m tr with
    | (Return a, tr') => (Return a, tr')
    | (Throw msg, tr') => (Return (h msg), tr')
    end.

Declare Scope async_scope.
Delimit Scope async_scope with async.
Notation "'await' x <- m ; k" := (abind m (fun x => k))
  (at level 10, x name, m at level 100, k at level 200) : async_scope.
Local Open Scope async_scope.

(** ** MCP response helpers *)

Record ToolResult : Type := mkResult {
  text : string;
  isError : bool
}.

Definition textResult (t : string) : ToolResult :=
  {| text := t; isError := false |}.

Definition errorResult (message : string) : ToolResult :=
  {| text := "Error: " +:+ message; isError := true |}.

(** The envelope of one call. *)
Record RcResponse : Type := mkResponse {
  ok : bool;
  status : Z;
  data : value
}.

(** The world outside the bridge: the configuration read from the
    environment, the editor behind [fetch] (its answer to a request,
    given the requests sent before it), and the JSON codec. *)
Class Platform : Type := mkPlatform {
  cfg_host : string;
  cfg_port : Z;
  fetch : list RcRequest -> RcRequest -> FetchOutcome;
  JSON_parse : string -> option value;
  JSON_stringify : value -> string
}.

Section Bridge.

Context {platform : Platform}.

Definition baseUrl : string :=
  "http://" +:+ cfg_host +:+ ":" +:+ pretty cfg_port.

(** ** HTTP client *)

Definition rcFetch (path method : string) (body : option value)
  : Async RcResponse :=
  fun tr =>
    let url := baseUrl +:+ path in
    let req := {| req_url := url; req_method := method; req_body := body |} in
    match fetch tr req with
    | Responded res =>
        let data :=
          match JSON_parse (res_text res) with
          | Some d => d
          | None => JStr (res_text res)
          end in
        (Return {| ok := res_ok res; status := res_status res; data := data |},
         tr ++ [req])
    | AbortError =>
        (Throw ("Request to " +:+ url +:+ " timed out after 10s"), tr ++ [req])
    | Rejected message =>
        (Throw ("Failed to connect to UE5 editor at " +:+ url +:+ ": " +:+ message),
         tr ++ [req])
    end.

(** ** RC API call helpers *)

Definition call_body (objectPath functionName : value)
    (parameters : option (list (string * value))) : value :=
  JObj [("objectPath", objectPath);
        ("functionName", functionName);
        ("parameters", JObj (default [] parameters));
        ("generateTransaction", JBool true)].

Definition rcCall (objectPath functionName : value)
    (parameters : option (list (string * value))) : Async RcResponse :=
  rcFetch "/remote/object/call" "PUT"
    (Some (call_body objectPath functionName parameters)).

Definition rcProperty (objectPath propertyName : string)
    (propertyValue : value) : Async RcResponse :=
  match propertyValue with
  | JUndefined =>
      rcFetch "/remote/object/property" "PUT"
        (Some (JObj [("objectPath", JStr objectPath);
                     ("propertyName", JStr propertyName);
                     ("access", JStr "READ_ACCESS")]))
  | _ =>
      rcFetch "/remote/object/property" "PUT"
        (Some (JObj [("objectPath", JStr objectPath);
                     ("propertyName", JStr propertyName);
                     ("propertyValue", propertyValue)]))
  end.

(** ** Lookup maps *)

Definition ENGINE_MESHES : gmap string string :=
  list_to_map
    [("Cube", "/Engine/BasicShapes/Cube.Cube");
     ("Sphere", "/Engine/BasicShapes/Sphere.Sphere");
     ("Cylinder", "/Engine/BasicShapes/Cylinder.Cylinder");
     ("Cone", "/Engine/BasicShapes/Cone.Cone");
     ("Plane", "/Engine/BasicShapes/Plane.Plane")].

Definition ACTOR_CLASSES : gmap string string :=
  list_to_map
    [("StaticMeshActor", "/Script/Engine.StaticMeshActor");
     ("PointLight", "/Script/Engine.PointLight");
     ("SpotLight", "/Script/Engine.SpotLight");
     ("DirectionalLight", "/Script/Engine.DirectionalLight");
     ("CameraActor", "/Script/Engine.CameraActor");
     ("PlayerStart", "/Script/Engine.PlayerStart");
     ("TriggerBox", "/Script/Engine.TriggerBox");
     ("TriggerSphere", "/Script/Engine.TriggerSphere");
     ("BlockingVolume", "/Script/Engine.BlockingVolume");
     ("ExponentialHeightFog", "/Script/Engine.ExponentialHeightFog");
     ("SkyLight", "/Script/Engine.SkyLight");
     ("DecalActor", "/Script/Engine.DecalActor");
     ("Note", "/Script/Engine.Note");
     ("TextRenderActor", "/Script/Engine.TextRenderActor")].

(** The tables are plain objects: a lookup that finds no property of
    the table itself goes on to [Object.prototype].  These are the
    names it finds there; each is a function, except [__proto__], which
    reads as [Object.prototype] itself. *)
Definition Object_prototype : list string :=
  ["constructor"; "__defineGetter__"; "__defineSetter__"; "hasOwnProperty";
   "__lookupGetter__"; "__lookupSetter__"; "isPrototypeOf";
   "propertyIsEnumerable"; "toString"; "valueOf"; "__proto__";
   "toLocaleString"].

Definition inherited (name : string) : bool :=
  existsb (String.eqb name) Object_prototype.

(** What [TABLE[token] || token] evaluates to: a string, or the member
    of [Object.prototype] of that name. *)
Inductive Resolved : Type :=
  | Path (path : string)
  | Builtin (name : string).

(** [TABLE[token] || token]. *)
Definition resolve (table : gmap string string) (token : string) : Resolved :=
  match table !! token with
  | Some path => if String.eqb path EmptyString then Path token else Path path
  | None => if inherited token then Builtin token else Path token
  end.

(** A resolved name in a template literal.  A built-in function prints
    as its native source text, under the name of the function
    ([constructor] is [Object]); [Object.prototype] prints as any plain
    object. *)
Definition resolved_text (r : Resolved) : string :=
  match r with
  | Path path => path
  | Builtin name =>
      if String.eqb name "__proto__" then "[object Object]"
      else "function "
           +:+ (if String.eqb name "constructor" then "Object" else name)
           +:+ "() { [native code] }"
  end.

(** A resolved name as a field of a request body.  A function has no
    JSON text: [JSON.stringify] leaves the field out, as it does for
    [undefined]; [Object.prototype] has no enumerable property and is
    sent as an empty object. *)
Definition resolved_field (r : Resolved) : value :=
  match r with
  | Path path => JStr path
  | Builtin name =>
      if String.eqb name "__proto__" then JObj [] else JUndefined
  end.

(** ** Tool inputs *)

Record Vec3 : Type := mkVec3 { vx : Z; vy : Z; vz : Z }.
Record Rotator : Type := mkRot { pitch : Z; yaw : Z; roll : Z }.

Definition XYZ (v : Vec3) : value :=
  JObj [("X", JNum (vx v)); ("Y", JNum (vy v)); ("Z", JNum (vz v))].

Definition PitchYawRoll (r : Rotator) : value :=
  JObj [("Pitch", JNum (pitch r)); ("Yaw", JNum (yaw r)); ("Roll", JNum (roll r))].

(** [if (s)] on an optional string: supplied and not empty. *)
Definition given (s : option string) : bool :=
  match s with
  | Some x => negb (String.eqb x EmptyString)
  | None => false
  end.

(** The string of an optional input that was given. *)
Definition the (s : option string) : string := default EmptyString s.

Definition nl : string := String (Ascii.ascii_of_nat 10) EmptyString.

(** [steps.map((s) => `- ${s}`).join("\n")]. *)
Definition bullets (steps : list string) : string :=
  String.concat nl (map (fun s => "- " +:+ s) steps).

(** ** ue5_spawn_actor *)

Record SpawnActorArgs : Type := mkSpawnActorArgs {
  actor_class : string;
  mesh : option string;
  label : option string;
  location : option Vec3;
  rotation : option Rotator;
  scale : option Vec3;
  simulate_physics : bool
}.

Definition warning (what : string) (res : RcResponse) : string :=
  "Warning: Failed to " +:+ what +:+ " (" +:+ pretty (status res) +:+ ")".

Definition EditorActorSubsystem : string :=
"/Script/UnrealEd.Default__EditorActorSubsystem".

Definition spawn_parameters (classPath : Resolved) (loc : option Vec3)
  : list (string * value) :=
  [("ActorClass", resolved_field classPath);
   ("Location", XYZ (default (mkVec3 0 0 0) loc))].

Definition meshComp (actorPath : value) : string :=
  JS.toString actorPath +:+ ".StaticMeshComponent0".

(** Step 2: set mesh if specified. *)
Definition set_mesh_step (a : SpawnActorArgs) (actorPath : value)
    (steps : list string) : Async (list string) :=
  if given (mesh a) then
    let meshPath := resolve ENGINE_MESHES (the (mesh a)) in
    await meshRes <- rcCall (JStr (meshComp actorPath)) (JStr "SetStaticMesh")
                       (Some [("NewMesh", resolved_field meshPath)]);
    aret (steps ++ [if ok meshRes then "Set mesh: " +:+ resolved_text meshPath
                    else warning "set mesh" meshRes])
  else aret steps.

(** Step 3: enable physics (Movable before SetSimulatePhysics). *)
Definition physics_step (a : SpawnActorArgs) (actorPath : value)
    (steps : list string) : Async (list string) :=
  if simulate_physics a then
    await mobRes <- rcCall (JStr (meshComp actorPath)) (JStr "SetMobility")
                      (Some [("NewMobility", JStr "Movable")]);
    let steps := steps ++ [if ok mobRes then "Set mobility: Movable"
                           else warning "set mobility" mobRes] in
    await physRes <- rcCall (JStr (meshComp actorPath)) (JStr "SetSimulatePhysics")
                       (Some [("bSimulate", JBool true)]);
    let steps := steps ++ [if ok physRes then "Enabled physics simulation"
                           else warning "enable physics" physRes] in
    await gravRes <- rcCall (JStr (meshComp actorPath)) (JStr "SetEnableGravity")
                       (Some [("bGravityEnabled", JBool true)]);
    aret (steps ++ [if ok gravRes then "Enabled gravity"
                    else warning "enable gravity" gravRes])
  else aret steps.

(** Step 4: set label. *)
Definition set_label_step (a : SpawnActorArgs) (actorPath : value)
    (steps : list string) : Async (list string) :=
  if given (label a) then
    let l := the (label a) in
    await labelRes <- rcCall actorPath (JStr "SetActorLabel")
                        (Some [("NewActorLabel", JStr l)]);
    aret (steps ++ [if ok labelRes then "Set label: " +:+ dq +:+ l +:+ dq
                    else warning "set label" labelRes])
  else aret steps.

(** Step 5: set rotation. *)
Definition set_rotation_step (a : SpawnActorArgs) (actorPath : value)
    (steps : list string) : Async (list string) :=
  match rotation a with
  | Some r =>
      await rotRes <- rcCall actorPath (JStr "K2_SetActorRotation")
                        (Some [("NewRotation", PitchYawRoll r);
                               ("bTeleportPhysics", JBool true)]);
      aret (steps ++ [if ok rotRes
                      then "Set rotation: pitch=" +:+ pretty (pitch r)
                           +:+ " yaw=" +:+ pretty (yaw r)
                           +:+ " roll=" +:+ pretty (roll r)
                      else warning "set rotation" rotRes])
  | None => aret steps
  end.

(** Step 6: set scale. *)
Definition set_scale_step (a : SpawnActorArgs) (actorPath : value)
    (steps : list string) : Async (list string) :=
  match scale a with
  | Some s =>
      await scaleRes <- rcCall actorPath (JStr "SetActorScale3D")
                          (Some [("NewScale3D", XYZ s)]);
      aret (steps ++ [if ok scaleRes
                      then "Set scale: " +:+ pretty (vx s) +:+ ", "
                           +:+ pretty (vy s) +:+ ", " +:+ pretty (vz s)
                      else warning "set scale" scaleRes])
  | None => aret steps
  end.

Definition spawned_entry (classPath : Resolved) (actorPath : value) : string :=
  "Spawned `" +:+ resolved_text classPath +:+ "` → `"
  +:+ JS.toString actorPath +:+ "`".

Definition actor_report (actorPath : value) (steps : list string) : string :=
  "## Actor Spawned" +:+ nl +:+ nl +:+
  "- **Path**: `" +:+ JS.toString actorPath +:+ "`" +:+ nl +:+
  bullets steps.

(** The configuration phase, entered once the actor exists. *)
Definition configure_actor (a : SpawnActorArgs) (actorPath : value)
    (steps : list string) : Async (list string) :=
  await steps <- set_mesh_step a actorPath steps;
  await steps <- physics_step a actorPath steps;
  await steps <- set_label_step a actorPath steps;
  await steps <- set_rotation_step a actorPath steps;
  set_scale_step a actorPath steps.

Definition spawn_actor_try (a : SpawnActorArgs) : Async ToolResult :=
  let classPath := resolve ACTOR_CLASSES (actor_class a) in
  await spawnRes <- rcCall (JStr EditorActorSubsystem) (JStr "SpawnActorFromClass")
                      (Some (spawn_parameters classPath (location a)));
  if negb (ok spawnRes) then
    aret (errorResult ("Spawn failed (HTTP " +:+ pretty (status spawnRes)
                       +:+ "): " +:+ JSON_stringify (data spawnRes)))
  else
    let actorPath := JS.opt_get (data spawnRes) "ReturnValue" in
    if negb (JS.truthy actorPath) then
      aret (errorResult ("Spawn returned no actor path. Response: "
                         +:+ JSON_stringify (data spawnRes)))
    else
      await steps <- configure_actor a actorPath
                       [spawned_entry classPath actorPath];
      aret (textResult (actor_report actorPath steps)).

Definition ue5_spawn_actor (a : SpawnActorArgs) : Async ToolResult :=
  try_catch (spawn_actor_try a) errorResult.

(** ** ue5_editor_command *)

Record CommandDescriptor : Type := mkCommand {
  cmd_objectPath : string;
  cmd_functionName : string;
  cmd_parameters : option (list (string * value));
  cmd_description : string
}.

Definition UnrealEditorSubsystem : string :=
  "/Script/UnrealEd.Default__UnrealEditorSubsystem".
Definition EditorLoadingAndSavingUtils : string :=
  "/Script/UnrealEd.Default__EditorLoadingAndSavingUtils".

Definition EDITOR_COMMANDS : gmap string CommandDescriptor :=
  list_to_map
    [("play",
      mkCommand UnrealEditorSubsystem "StartPIE"
        (Some [("bSimulateInEditor", JBool false)])
        "Start Play In Editor (PIE)");
     ("simulate",
      mkCommand UnrealEditorSubsystem "StartPIE"
        (Some [("bSimulateInEditor", JBool true)])
        "Start Simulate In Editor");
     ("stop",
      mkCommand UnrealEditorSubsystem "EndPIE" None "Stop Play In Editor");
     ("save_current_level",
      mkCommand EditorLoadingAndSavingUtils "SaveCurrentLevel" None
        "Save the current level");
     ("save_all",
      mkCommand EditorLoadingAndSavingUtils "SaveDirtyPackages"
        (Some [("bPromptUserToSave", JBool false);
               ("bSaveMapPackages", JBool true);
               ("bSaveContentPackages", JBool true)])
        "Save all dirty packages");
     ("undo",
      mkCommand UnrealEditorSubsystem "Undo" None "Undo the last action");
     ("redo",
      mkCommand UnrealEditorSubsystem "Redo" None "Redo the last undone action");
     ("select_none",
      mkCommand EditorActorSubsystem "ClearActorSelectionSet" None
        "Deselect all actors");
     ("delete_selected",
      mkCommand EditorActorSubsystem "DestroySelectedActors" None
        "Delete all selected actors");
     ("duplicate_selected",
      mkCommand EditorActorSubsystem "DuplicateSelectedActors" None
        "Duplicate all selected actors")].

(** The handler.  For a name that [EDITOR_COMMANDS] only inherits,
    [cmd] is a member of [Object.prototype]: it passes the guard, and
    none of the four fields of a descriptor is a property of it. *)
Definition editor_command_try (command : string) : Async ToolResult :=
  match EDITOR_COMMANDS !! command with
  | Some cmd =>
      await res <- rcCall (JStr (cmd_objectPath cmd)) (JStr (cmd_functionName cmd))
                     (cmd_parameters cmd);
      if negb (ok res) then
        aret (errorResult ("Command " +:+ dq +:+ command +:+ dq
                           +:+ " failed (HTTP " +:+ pretty (status res)
                           +:+ "): " +:+ JSON_stringify (data res)))
      else
        aret (textResult ("Executed: **" +:+ cmd_description cmd +:+ "**"))
  | None =>
      if inherited command then
        await res <- rcCall JUndefined JUndefined None;
        if negb (ok res) then
          aret (errorResult ("Command " +:+ dq +:+ command +:+ dq
                             +:+ " failed (HTTP " +:+ pretty (status res)
                             +:+ "): " +:+ JSON_stringify (data res)))
        else
          aret (textResult ("Executed: **" +:+ JS.toString JUndefined +:+ "**"))
      else aret (errorResult ("Unknown command: " +:+ command))
  end.

Definition ue5_editor_command (command : string) : Async ToolResult :=
  try_catch (editor_command_try command) errorResult.



(** ** ue5_batch *)

Inductive OpType : Type := OpCall | OpProperty.

Record BatchOp : Type := mkOp {
  op_type : OpType;
  object_path : string;
  function_name : option string;
  property_name : option string;
  parameters : option (list (string * value));
  property_value : value
}.

(** An optional string as a JavaScript value. *)
Definition opt_str (s : option string) : value :=
  match s with Some x => JStr x | None => JUndefined end.

(** The body of [operations.map((op, index) => ...)]. *)
Definition batch_request (index : nat) (op : BatchOp) : value :=
  match op_type op with
  | OpCall =>
      JObj [("RequestId", JNum (Z.of_nat index));
            ("URL", JStr "/remote/object/call");
            ("Verb", JStr "PUT");
            ("Body", JObj [("objectPath", JStr (object_path op));
                           ("functionName", opt_str (function_name op));
                           ("parameters", JObj (default [] (parameters op)));
                           ("generateTransaction", JBool true)])]
  | OpProperty =>
      JObj [("RequestId", JNum (Z.of_nat index));
            ("URL", JStr "/remote/object/property");
            ("Verb", JStr "PUT");
            ("Body", JObj [("objectPath", JStr (object_path op));
                           ("propertyName", opt_str (property_name op));
                           ("propertyValue", property_value op)])]
  end.

(** [responses.find((r) => r.RequestId === i)]: [None] when reading
    [RequestId] throws, [Some JUndefined] when nothing matches. *)
Fixpoint find_by_RequestId (i : nat) (items : list value) : option value :=
  match items with
  | [] => Some JUndefined
  | r :: rest =>
      match JS.get r "RequestId" with
      | None => None
      | Some id =>
          if JS.strict_eq_num id (Z.of_nat i) then Some r
          else find_by_RequestId i rest
      end
  end.

Definition TypeError_RequestId : string :=
  "Cannot read properties of null (reading 'RequestId')".

(** [Array.isArray(responses)
      ? responses.find(...) || responses[i] : undefined]. *)
Definition batch_resp (responses : value) (i : nat) : Result value :=
  match responses with
  | JArr items =>
      match find_by_RequestId i items with
      | Some found => Return (JS.or found (nth i items JUndefined))
      | None => Throw TypeError_RequestId
      end
  | _ => Return JUndefined
  end.

(** [resp?.StatusCode || resp?.status || "?"]. *)
Definition batch_status (resp : value) : value :=
  JS.or (JS.or (JS.opt_get resp "StatusCode") (JS.opt_get resp "status"))
        (JStr "?").

(** [status >= 200 && status < 300]. *)
Definition batch_ok (status : value) : bool :=
  JS.ge_num status 200 && JS.lt_num status 300.

Definition op_text (op : BatchOp) : string :=
  match op_type op with
  | OpCall =>
      "call `" +:+ object_path op +:+ "`."
      +:+ JS.toString (opt_str (function_name op)) +:+ "()"
  | OpProperty =>
      "set `" +:+ object_path op +:+ "`."
      +:+ JS.toString (opt_str (property_name op))
  end.

(** What one turn of the loop appends to [output]. *)
Definition batch_line (i : nat) (op : BatchOp) (status : value) : string :=
  pretty (i + 1)%nat +:+ ". [" +:+ (if batch_ok status then "OK" else "FAIL")
  +:+ "] " +:+ op_text op +:+ " — " +:+ JS.toString status +:+ nl.

(** [for (let i = 0; i < operations.length; i++)], from index [i] on. *)
Fixpoint batch_loop (responses : value) (ops : list BatchOp) (i : nat)
    (output : string) : Result string :=
  match ops with
  | [] => Return output
  | op :: rest =>
      match batch_resp responses i with
      | Throw message => Throw message
      | Return resp =>
          batch_loop responses rest (S i)
            (output +:+ batch_line i op (batch_status resp))
      end
  end.

Definition lift {A} (r : Result A) : Async A := fun tr => (r, tr).

Definition batch_header (k : nat) : string :=
  "## Batch Results (" +:+ pretty k +:+ " operations)" +:+ nl +:+ nl.

Definition batch_payload (ops : list BatchOp) : value :=
  JObj [("Requests", JArr (imap batch_request ops))].

(** [res.data?.Responses || res.data || []]. *)
Definition batch_responses (d : value) : value :=
  JS.or (JS.or (JS.opt_get d "Responses") d) (JArr []).

Definition batch_try (ops : list BatchOp) : Async ToolResult :=
  await res <- rcFetch "/remote/batch" "PUT" (Some (batch_payload ops));
  if negb (ok res) then
    aret (errorResult ("Batch request failed (HTTP " +:+ pretty (status res)
                       +:+ "): " +:+ JSON_stringify (data res)))
  else
    await output <- lift (batch_loop (batch_responses (data res)) ops 0
                            (batch_header (length ops)));
    aret (textResult output).

Definition ue5_batch (ops : list BatchOp) : Async ToolResult :=
  try_catch (batch_try ops) errorResult.

(** ** ue5_spawn_light *)

Definition LIGHT_CLASSES : gmap string string :=
  list_to_map
    [("PointLight", "/Script/Engine.PointLight");
     ("SpotLight", "/Script/Engine.SpotLight");
     ("DirectionalLight", "/Script/Engine.DirectionalLight");
     ("RectLight", "/Script/Engine.RectLight");
     ("SkyLight", "/Script/Engine.SkyLight")].

Record RGB : Type := mkRGB { red : Z; green : Z; blue : Z }.

Record SpawnLightArgs : Type := mkSpawnLightArgs {
  light_type : string;
  light_location : option Vec3;
  light_rotation : option Rotator;
  light_label : option string;
  intensity : Z;
  color : option RGB;
  attenuation_radius : option Z;
  inner_cone_angle : option Z;
  outer_cone_angle : option Z;
  cast_shadows : bool
}.

Definition lightComp (actorPath : value) : string :=
  JS.toString actorPath +:+ ".LightComponent0".

Definition light_intensity_step (a : SpawnLightArgs) (actorPath : value)
    (steps : list string) : Async (list string) :=
  await intRes <- rcCall (JStr (lightComp actorPath)) (JStr "SetIntensity")
                    (Some [("NewIntensity", JNum (intensity a))]);
  aret (if ok intRes then steps ++ ["Intensity: " +:+ pretty (intensity a)]
        else steps).

Definition light_color_step (a : SpawnLightArgs) (actorPath : value)
    (steps : list string) : Async (list string) :=
  match color a with
  | Some c =>
      await colRes <- rcCall (JStr (lightComp actorPath)) (JStr "SetLightColor")
                        (Some [("NewLightColor",
                                JObj [("R", JNum (red c)); ("G", JNum (green c));
                                      ("B", JNum (blue c)); ("A", JNum 255)])]);
      aret (if ok colRes
            then steps ++ ["Color: (" +:+ pretty (red c) +:+ ", "
                           +:+ pretty (green c) +:+ ", " +:+ pretty (blue c)
                           +:+ ")"]
            else steps)
  | None => aret steps
  end.

(** [attenuation_radius && light_type !== "DirectionalLight"
      && light_type !== "SkyLight"]. *)
Definition attenuation_applies (a : SpawnLightArgs) : bool :=
  match attenuation_radius a with
  | Some radius =>
      negb (radius =? 0)
      && negb (String.eqb (light_type a) "DirectionalLight")
      && negb (String.eqb (light_type a) "SkyLight")
  | None => false
  end.

Definition light_attenuation_step (a : SpawnLightArgs) (actorPath : value)
    (steps : list string) : Async (list string) :=
  if attenuation_applies a then
    let radius := default 0 (attenuation_radius a) in
    await attRes <- rcCall (JStr (lightComp actorPath)) (JStr "SetAttenuationRadius")
                      (Some [("NewRadius", JNum radius)]);
    aret (if ok attRes then steps ++ ["Attenuation radius: " +:+ pretty radius]
          else steps)
  else aret steps.

Definition light_inner_cone_step (a : SpawnLightArgs) (actorPath : value)
    (steps : list string) : Async (list string) :=
  match inner_cone_angle a with
  | Some angle =>
      await _unused <- rcCall (JStr (lightComp actorPath)) (JStr "SetInnerConeAngle")
                         (Some [("NewInnerConeAngle", JNum angle)]);
      aret (steps ++ ["Inner cone: " +:+ pretty angle +:+ "°"])
  | None => aret steps
  end.

Definition light_outer_cone_step (a : SpawnLightArgs) (actorPath : value)
    (steps : list string) : Async (list string) :=
  match outer_cone_angle a with
  | Some angle =>
      await _unused <- rcCall (JStr (lightComp actorPath)) (JStr "SetOuterConeAngle")
                         (Some [("NewOuterConeAngle", JNum angle)]);
      aret (steps ++ ["Outer cone: " +:+ pretty angle +:+ "°"])
  | None => aret steps
  end.

Definition light_cone_step (a : SpawnLightArgs) (actorPath : value)
    (steps : list string) : Async (list string) :=
  if String.eqb (light_type a) "SpotLight" then
    await steps <- light_inner_cone_step a actorPath steps;
    light_outer_cone_step a actorPath steps
  else aret steps.

Definition light_shadow_step (a : SpawnLightArgs) (actorPath : value)
    (steps : list string) : Async (list string) :=
  await shadowRes <- rcCall (JStr (lightComp actorPath)) (JStr "SetCastShadows")
                       (Some [("NewCastShadows", JBool (cast_shadows a))]);
  aret (if ok shadowRes
        then steps ++ ["Cast shadows: " +:+ JS.toString (JBool (cast_shadows a))]
        else steps).

Definition light_rotation_step (a : SpawnLightArgs) (actorPath : value)
    (steps : list string) : Async (list string) :=
  match light_rotation a with
  | Some r =>
      await _unused <- rcCall actorPath (JStr "K2_SetActorRotation")
                         (Some [("NewRotation", PitchYawRoll r);
                                ("bTeleportPhysics", JBool true)]);
      aret (steps ++ ["Rotation: pitch=" +:+ pretty (pitch r)
                      +:+ " yaw=" +:+ pretty (yaw r)
                      +:+ " roll=" +:+ pretty (roll r)])
  | None => aret steps
  end.

Definition light_label_step (a : SpawnLightArgs) (actorPath : value)
    (steps : list string) : Async (list string) :=
  if given (light_label a) then
    let l := the (light_label a) in
    await _unused <- rcCall actorPath (JStr "SetActorLabel")
                       (Some [("NewActorLabel", JStr l)]);
    aret (steps ++ ["Label: " +:+ dq +:+ l +:+ dq])
  else aret steps.

Definition configure_light (a : SpawnLightArgs) (actorPath : value)
    (steps : list string) : Async (list string) :=
  await steps <- light_intensity_step a actorPath steps;
  await steps <- light_color_step a actorPath steps;
  await steps <- light_attenuation_step a actorPath steps;
  await steps <- light_cone_step a actorPath steps;
  await steps <- light_shadow_step a actorPath steps;
  await steps <- light_rotation_step a actorPath steps;
  light_label_step a actorPath steps.

Definition light_report (actorPath : value) (steps : list string) : string :=
  "## Light Spawned" +:+ nl +:+ nl +:+
  "- **Path**: `" +:+ JS.toString actorPath +:+ "`" +:+ nl +:+
  bullets steps.

Definition spawn_light_try (a : SpawnLightArgs) : Async ToolResult :=
  let classPath := opt_str (LIGHT_CLASSES !! light_type a) in
  let loc := default (mkVec3 0 0 300) (light_location a) in
  await spawnRes <- rcCall (JStr EditorActorSubsystem) (JStr "SpawnActorFromClass")
                      (Some [("ActorClass", classPath); ("Location", XYZ loc)]);
  if negb (ok spawnRes) then
    aret (errorResult ("Spawn light failed (HTTP " +:+ pretty (status spawnRes)
                       +:+ "): " +:+ JSON_stringify (data spawnRes)))
  else
    let actorPath := JS.opt_get (data spawnRes) "ReturnValue" in
    if negb (JS.truthy actorPath) then
      aret (errorResult "Spawn returned no actor path.")
    else
      await steps <- configure_light a actorPath
                       ["Spawned " +:+ light_type a +:+ " → `"
                        +:+ JS.toString actorPath +:+ "`"];
      aret (textResult (light_report actorPath steps)).

Definition ue5_spawn_light (a : SpawnLightArgs) : Async ToolResult :=
  try_catch (spawn_light_try a) errorResult.

(** ** ue5_set_camera *)

(** [if (x)] on an optional object input: supplied. *)
Definition supplied {A} (x : option A) : bool :=
  match x with Some _ => true | None => false end.

Record SetCameraArgs : Type := mkSetCameraArgs {
  camera_location : option Vec3;
  camera_rotation : option Rotator
}.

(** [params], as the inputs fill it. *)
Definition camera_params (a : SetCameraArgs) : list (string * value) :=
  (if camera_location a is Some l then [("CameraLocation", XYZ l)] else []) ++
  (if camera_rotation a is Some r then [("CameraRotation", PitchYawRoll r)] else []).

(** [params], after the current camera has filled what was not
    supplied. *)
Definition camera_fill (a : SetCameraArgs) (getRes : RcResponse)
    (params : list (string * value)) : list (string * value) :=
  if ok getRes && JS.truthy (data getRes) then
    let params :=
      if negb (supplied (camera_location a))
         && JS.truthy (JS.opt_get (data getRes) "CameraLocation")
      then params ++ [("CameraLocation", JS.opt_get (data getRes) "CameraLocation")]
      else params in
    if negb (supplied (camera_rotation a))
       && JS.truthy (JS.opt_get (data getRes) "CameraRotation")
    then params ++ [("CameraRotation", JS.opt_get (data getRes) "CameraRotation")]
    else params
  else params.

Definition camera_report (a : SetCameraArgs) : string :=
  "## Camera Updated" +:+ nl +:+ nl +:+
  (if camera_location a is Some l
   then "- **Location**: (" +:+ pretty (vx l) +:+ ", " +:+ pretty (vy l)
        +:+ ", " +:+ pretty (vz l) +:+ ")" +:+ nl
   else EmptyString) +:+
  (if camera_rotation a is Some r
   then "- **Rotation**: pitch=" +:+ pretty (pitch r) +:+ " yaw="
        +:+ pretty (yaw r) +:+ " roll=" +:+ pretty (roll r) +:+ nl
   else EmptyString).

Definition set_camera_try (a : SetCameraArgs) : Async ToolResult :=
  let params := camera_params a in
  if negb (supplied (camera_location a)) && negb (supplied (camera_rotation a))
  then aret (errorResult "Specify at least location or rotation.")
  else
    await params <-
      (if negb (supplied (camera_location a)) || negb (supplied (camera_rotation a))
       then
         await getRes <- rcCall (JStr UnrealEditorSubsystem)
                           (JStr "GetLevelViewportCameraInfo") (Some []);
         aret (camera_fill a getRes params)
       else aret params);
    await res <- rcCall (JStr UnrealEditorSubsystem)
                   (JStr "SetLevelViewportCameraInfo") (Some params);
    if negb (ok res) then
      aret (errorResult ("Set camera failed (HTTP " +:+ pretty (status res)
                         +:+ "): " +:+ JSON_stringify (data res)))
    else aret (textResult (camera_report a)).

Definition ue5_set_camera (a : SetCameraArgs) : Async ToolResult :=
  try_catch (set_camera_try a) errorResult.

(** ** ue5_modify_actor *)

Record ModifyActorArgs : Type := mkModifyActorArgs {
  modify_actor_path : string;
  modify_location : option Vec3;
  modify_rotation : option Rotator;
  modify_scale : option Vec3;
  modify_label : option string;
  (** [Object.entries(properties)], in enumeration order. *)
  modify_properties : option (list (string * value))
}.

Definition modify_location_step (a : ModifyActorArgs) (steps : list string)
  : Async (list string) :=
  match modify_location a with
  | Some l =>
      await res <- rcCall (JStr (modify_actor_path a)) (JStr "K2_SetActorLocation")
                     (Some [("NewLocation", XYZ l); ("bSweep", JBool false);
                            ("bTeleport", JBool true)]);
      aret (steps ++ [if ok res
                      then "Location → (" +:+ pretty (vx l) +:+ ", "
                           +:+ pretty (vy l) +:+ ", " +:+ pretty (vz l) +:+ ")"
                      else "Warning: Failed to set location ("
                           +:+ pretty (status res) +:+ ")"])
  | None => aret steps
  end.

Definition modify_rotation_step (a : ModifyActorArgs) (steps : list string)
  : Async (list string) :=
  match modify_rotation a with
  | Some r =>
      await res <- rcCall (JStr (modify_actor_path a)) (JStr "K2_SetActorRotation")
                     (Some [("NewRotation", PitchYawRoll r);
                            ("bTeleportPhysics", JBool true)]);
      aret (steps ++ [if ok res
                      then "Rotation → (" +:+ pretty (pitch r) +:+ ", "
                           +:+ pretty (yaw r) +:+ ", " +:+ pretty (roll r) +:+ ")"
                      else "Warning: Failed to set rotation ("
                           +:+ pretty (status res) +:+ ")"])
  | None => aret steps
  end.

Definition modify_scale_step (a : ModifyActorArgs) (steps : list string)
  : Async (list string) :=
  match modify_scale a with
  | Some s =>
      await res <- rcCall (JStr (modify_actor_path a)) (JStr "SetActorScale3D")
                     (Some [("NewScale3D", XYZ s)]);
      aret (steps ++ [if ok res
                      then "Scale → (" +:+ pretty (vx s) +:+ ", "
                           +:+ pretty (vy s) +:+ ", " +:+ pretty (vz s) +:+ ")"
                      else "Warning: Failed to set scale ("
                           +:+ pretty (status res) +:+ ")"])
  | None => aret steps
  end.

Definition modify_label_step (a : ModifyActorArgs) (steps : list string)
  : Async (list string) :=
  if given (modify_label a) then
    let l := the (modify_label a) in
    await res <- rcCall (JStr (modify_actor_path a)) (JStr "SetActorLabel")
                   (Some [("NewActorLabel", JStr l)]);
    aret (steps ++ [if ok res then "Label → " +:+ dq +:+ l +:+ dq
                    else "Warning: Failed to set label ("
                         +:+ pretty (status res) +:+ ")"])
  else aret steps.

(** [for (const [propName, propValue] of Object.entries(properties))]. *)
Fixpoint modify_property_steps (actor_path : string)
    (entries : list (string * value)) (steps : list string)
  : Async (list string) :=
  match entries with
  | [] => aret steps
  | (propName, propValue) :: rest =>
      await res <- rcProperty actor_path propName propValue;
      modify_property_steps actor_path rest
        (steps ++ [if ok res
                   then propName +:+ " → " +:+ JSON_stringify propValue
                   else "Warning: Failed to set " +:+ propName +:+ " ("
                        +:+ pretty (status res) +:+ ")"])
  end.

Definition modify_properties_step (a : ModifyActorArgs) (steps : list string)
  : Async (list string) :=
  match modify_properties a with
  | Some entries => modify_property_steps (modify_actor_path a) entries steps
  | None => aret steps
  end.

Definition modify_report (a : ModifyActorArgs) (steps : list string) : string :=
  "## Modified `" +:+ modify_actor_path a +:+ "`" +:+ nl +:+ nl +:+ bullets steps.

Definition modify_actor_try (a : ModifyActorArgs) : Async ToolResult :=
  await steps <- modify_location_step a [];
  await steps <- modify_rotation_step a steps;
  await steps <- modify_scale_step a steps;
  await steps <- modify_label_step a steps;
  await steps <- modify_properties_step a steps;
  if (length steps =? 0)%nat then
    aret (textResult "No modifications specified.")
  else aret (textResult (modify_report a steps)).

Definition ue5_modify_actor (a : ModifyActorArgs) : Async ToolResult :=
  try_catch (modify_actor_try a) errorResult.

(** ** More of JavaScript *)

(** Strings are sequences of one-byte characters: [length], [slice] and
    [toLowerCase] below are those of JavaScript on ASCII text. *)

(** [typeof v === "object"]. *)
Definition typeof_object (v : value) : bool :=
  match v with JNull | JArr _ | JObj _ => true | _ => false end.

(** [v ?? d]. *)
Definition coalesce (v d : value) : value :=
  match v with JUndefined | JNull => d | _ => v end.

Definition lower_ascii (c : Ascii.ascii) : Ascii.ascii :=
  let n := Ascii.nat_of_ascii c in
  if ((65 <=? n) && (n <=? 90))%nat then Ascii.ascii_of_nat (n + 32) else c.

(** [s.toLowerCase()]. *)
Fixpoint toLowerCase (s : string) : string :=
  match s with
  | EmptyString => EmptyString
  | String c rest => String (lower_ascii c) (toLowerCase rest)
  end.

(** [hay.includes(needle)]. *)
Fixpoint includes (needle hay : string) : bool :=
  if String.prefix needle hay then true
  else match hay with
       | EmptyString => false
       | String _ rest => includes needle rest
       end.

(** The message of the [TypeError] for a call of something that is not
    a function, and for a property read on [null] or [undefined]. *)
Definition not_a_function (what : string) : string :=
  what +:+ " is not a function".

Definition cannot_read (v : value) (property : string) : string :=
  "Cannot read properties of " +:+ JS.toString v +:+ " (reading '"
  +:+ property +:+ "')".

(** [obj.key = v] on the fields of an object. *)
Fixpoint assign (key : string) (v : value) (fields : list (string * value))
  : list (string * value) :=
  match fields with
  | [] => [(key, v)]
  | (k, old) :: rest =>
      if String.eqb key k then (key, v) :: rest
      else (k, old) :: assign key v rest
  end.

(** The own fields that [{...v}] copies; none for [undefined]. *)
Definition spread (v : value) : list (string * value) :=
  match v with JObj fields => fields | _ => [] end.

(** [Object.entries(v)]; [None] is the [TypeError] on [null] and
    [undefined]. *)
Definition object_entries (v : value) : option (list (string * value)) :=
  match v with
  | JUndefined | JNull => None
  | JObj fields => Some fields
  | JArr items => Some (imap (fun i x => (pretty i, x)) items)
  | _ => Some []
  end.

(** A loop that appends one line per item to [output]. *)
Fixpoint append_lines (line : value -> Result string) (items : list value)
    (output : string) : Result string :=
  match items with
  | [] => Return output
  | item :: rest =>
      match line item with
      | Return l => append_lines line rest (output +:+ l)
      | Throw message => Throw message
      end
  end.

(** ** ue5_connect *)

Definition connect_try : Async ToolResult :=
  await res <- rcFetch "/remote/info" "GET" None;
  if negb (ok res) then
    aret (errorResult ("Editor returned HTTP " +:+ pretty (status res) +:+ ": "
                       +:+ JSON_stringify (data res)))
  else
    let output :=
      "## UE5 Editor Connected" +:+ nl +:+ nl +:+
      "- **Endpoint**: " +:+ cfg_host +:+ ":" +:+ pretty cfg_port +:+ nl in
    await output <-
      lift (if typeof_object (data res) then
              match object_entries (data res) with
              | Some entries =>
                  Return (fold_left
                            (fun out entry =>
                               out +:+ "- **" +:+ fst entry +:+ "**: "
                               +:+ JSON_stringify (snd entry) +:+ nl)
                            entries output)
              | None => Throw "Cannot convert undefined or null to object"
              end
            else Return output);
    aret (textResult (output +:+ nl
                      +:+ "Remote Control API is active and responding.")).

Definition ue5_connect : Async ToolResult :=
  try_catch connect_try errorResult.

(** ** ue5_list_actors *)

Record ListActorsArgs : Type := mkListActorsArgs {
  class_filter : option string;
  list_limit : nat
}.

(** [actors.filter((a) => a.toLowerCase().includes(filterLower))]. *)
Fixpoint filter_actors (filterLower : string) (actors : list value)
  : Result (list value) :=
  match actors with
  | [] => Return []
  | a :: rest =>
      match a with
      | JStr s =>
          match filter_actors filterLower rest with
          | Return kept =>
              Return (if includes filterLower (toLowerCase s)
                      then a :: kept else kept)
          | Throw message => Throw message
          end
      | JUndefined | JNull => Throw (cannot_read a "toLowerCase")
      | _ => Throw (not_a_function "a.toLowerCase")
      end
  end.

(** The actors to list, out of [res.data?.ReturnValue || []]; what is
    not an array has no [filter], and then no [slice] or [forEach]. *)
Definition select_actors (a : ListActorsArgs) (returned : value)
  : Result (list value) :=
  match JS.or returned (JArr []) with
  | JArr items =>
      if given (class_filter a)
      then filter_actors (toLowerCase (the (class_filter a))) items
      else Return items
  | JStr _ =>
      Throw (not_a_function (if given (class_filter a) then "actors.filter"
                             else "actors.forEach"))
  | _ =>
      Throw (not_a_function (if given (class_filter a) then "actors.filter"
                             else "actors.slice"))
  end.

Definition actors_report (a : ListActorsArgs) (total : nat) (shown : list value)
  : string :=
  fold_left String.append
    (imap (fun i actor =>
             pretty (i + 1)%nat +:+ ". `" +:+ JS.toString actor +:+ "`" +:+ nl)
          shown)
    ("## Level Actors" +:+
     (if given (class_filter a)
      then " (filter: " +:+ dq +:+ the (class_filter a) +:+ dq +:+ ")"
      else EmptyString) +:+
     nl +:+ nl +:+ "Showing " +:+ pretty (length shown) +:+ " of "
     +:+ pretty total +:+ " actors" +:+ nl +:+ nl).

Definition list_actors_try (a : ListActorsArgs) : Async ToolResult :=
  await res <- rcCall (JStr EditorActorSubsystem) (JStr "GetAllLevelActors") None;
  if negb (ok res) then
    aret (errorResult ("Failed to list actors (HTTP " +:+ pretty (status res)
                       +:+ "): " +:+ JSON_stringify (data res)))
  else
    await actors <- lift (select_actors a (JS.opt_get (data res) "ReturnValue"));
    let total := length actors in
    let actors := take (list_limit a) actors in
    aret (textResult (actors_report a total actors)).

Definition ue5_list_actors (a : ListActorsArgs) : Async ToolResult :=
  try_catch (list_actors_try a) errorResult.

(** ** ue5_delete_actor *)

Definition delete_actor_try (actor_path : string) : Async ToolResult :=
  await res <- rcCall (JStr EditorActorSubsystem) (JStr "DestroyActor")
                 (Some [("ActorToDestroy", JStr actor_path)]);
  if negb (ok res) then
    aret (errorResult ("Delete failed (HTTP " +:+ pretty (status res) +:+ "): "
                       +:+ JSON_stringify (data res)))
  else aret (textResult ("Deleted actor: `" +:+ actor_path +:+ "`")).

Definition ue5_delete_actor (actor_path : string) : Async ToolResult :=
  try_catch (delete_actor_try actor_path) errorResult.

(** ** ue5_search_assets *)

Record SearchAssetsArgs : Type := mkSearchAssetsArgs {
  search_query : string;
  search_class_name : option string;
  search_path : option string;
  search_limit : nat
}.

Definition search_body (a : SearchAssetsArgs) : list (string * value) :=
  let body := [("Query", JStr (search_query a));
               ("Limit", JNum (Z.of_nat (search_limit a)))] in
  let body :=
    if given (search_class_name a)
    then assign "Filter"
           (JObj [("ClassNames", JArr [JStr (the (search_class_name a))])]) body
    else body in
  if given (search_path a)
  then assign "Filter"
         (JObj (assign "PackagePaths" (JArr [JStr (the (search_path a))])
                  (spread (JS.assoc "Filter" body)))) body
  else body.






(** ** ue5_get_camera *)

(** [${v ?? 0}]. *)
Definition or_zero (v : value) : string := JS.toString (coalesce v (JNum 0)).

Definition get_camera_report (d : value) : string :=
  let loc := JS.or (JS.opt_get d "CameraLocation") (JObj []) in
  let rot := JS.or (JS.opt_get d "CameraRotation") (JObj []) in
  "## Current Viewport Camera" +:+ nl +:+ nl +:+
  "- **Location**: X=" +:+ or_zero (JS.opt_get loc "X") +:+
  " Y=" +:+ or_zero (JS.opt_get loc "Y") +:+
  " Z=" +:+ or_zero (JS.opt_get loc "Z") +:+ nl +:+
  "- **Rotation**: Pitch=" +:+ or_zero (JS.opt_get rot "Pitch") +:+
  " Yaw=" +:+ or_zero (JS.opt_get rot "Yaw") +:+
  " Roll=" +:+ or_zero (JS.opt_get rot "Roll") +:+ nl.

Definition get_camera_try : Async ToolResult :=
  await res <- rcCall (JStr UnrealEditorSubsystem)
                 (JStr "GetLevelViewportCameraInfo") (Some []);
  if negb (ok res) then
    aret (errorResult ("Get camera failed (HTTP " +:+ pretty (status res)
                       +:+ "): " +:+ JSON_stringify (data res)))
  else aret (textResult (get_camera_report (data res))).

Definition ue5_get_camera : Async ToolResult :=
  try_catch get_camera_try errorResult.

(** ** ue5_describe_actor *)

(** [val.length > 80 ? val.slice(0, 77) + "..." : val]. *)
Definition clip (val : string) : string :=
  if (80 <? String.length val)%nat
  then String.substring 0 77 val +:+ "..."
  else val.

Definition property_row (prop : value) : Result string :=
  match JS.get prop "Value" with
  | None => Throw (cannot_read prop "Value")
  | Some v =>
      let val :=
        if typeof_object v then JSON_stringify v
        else JS.toString (coalesce v (JStr EmptyString)) in
      Return ("| " +:+ JS.toString (JS.opt_get prop "Name") +:+ " | "
              +:+ JS.toString (JS.or (JS.opt_get prop "Type") (JStr EmptyString))
              +:+ " | " +:+ clip val +:+ " |" +:+ nl)
  end.

Definition function_line (fn : value) : Result string :=
  match JS.get fn "Name" with
  | None => Throw (cannot_read fn "Name")
  | Some name =>
      Return ("- `" +:+ JS.toString (JS.or name fn) +:+ "`" +:+ nl)
  end.

Definition describe_properties (d : value) (output : string) : Result string :=
  match JS.opt_get d "Properties" with
  | JArr props =>
      let output :=
        output +:+ nl +:+ "### Properties (" +:+ pretty (length props) +:+ ")"
        +:+ nl +:+ nl +:+
        "| Name | Type | Value |" +:+ nl +:+ "|------|------|-------|" +:+ nl in
      match append_lines property_row (take 100 props) output with
      | Return output =>
          Return (if (100 <? length props)%nat
                  then output +:+ nl +:+ "*...and "
                       +:+ pretty (length props - 100)%nat
                       +:+ " more properties*" +:+ nl
                  else output)
      | Throw message => Throw message
      end
  | _ => Return output
  end.

Definition describe_functions (d : value) (output : string) : Result string :=
  match JS.opt_get d "Functions" with
  | JArr fns =>
      let output :=
        output +:+ nl +:+ "### Functions (" +:+ pretty (length fns) +:+ ")"
        +:+ nl +:+ nl in
      match append_lines function_line (take 50 fns) output with
      | Return output =>
          Return (if (50 <? length fns)%nat
                  then output +:+ nl +:+ "*...and "
                       +:+ pretty (length fns - 50)%nat
                       +:+ " more functions*" +:+ nl
                  else output)
      | Throw message => Throw message
      end
  | _ => Return output
  end.

Definition describe_report (actor_path : string) (d : value) : Result string :=
  match JS.get d "Name" with
  | None => Throw (cannot_read d "Name")
  | Some name =>
      let output := "## Actor: `" +:+ actor_path +:+ "`" +:+ nl +:+ nl in
      let output :=
        if JS.truthy name
        then output +:+ "- **Name**: " +:+ JS.toString name +:+ nl
        else output in
      let output :=
        if JS.truthy (JS.opt_get d "Class")
        then output +:+ "- **Class**: " +:+ JS.toString (JS.opt_get d "Class")
             +:+ nl
        else output in
      match describe_properties d output with
      | Return output => describe_functions d output
      | Throw message => Throw message
      end
  end.

Definition describe_actor_try (actor_path : string) : Async ToolResult :=
  await res <- rcFetch "/remote/object/describe" "PUT"
                 (Some (JObj [("objectPath", JStr actor_path)]));
  if negb (ok res) then
    aret (errorResult ("Describe failed (HTTP " +:+ pretty (status res) +:+ "): "
                       +:+ JSON_stringify (data res)))
  else
    await output <- lift (describe_report actor_path (data res));
    aret (textResult output).

Definition ue5_describe_actor (actor_path : string) : Async ToolResult :=
  try_catch (describe_actor_try actor_path) errorResult.

(** ** ue5_create_dynamic_material *)

Record RGBA : Type := mkRGBA {
  rgba_r : Z; rgba_g : Z; rgba_b : Z; rgba_a : Z
}.

Record DynamicMaterialArgs : Type := mkDynamicMaterialArgs {
  material_actor_path : string;
  slot_index : Z;
  material_component_name : string;
  (** [Object.entries(scalar_params)] and [Object.entries(vector_params)],
      in enumeration order. *)
  scalar_params : option (list (string * Z));
  vector_params : option (list (string * RGBA))
}.

Fixpoint scalar_param_steps (matPath : value) (entries : list (string * Z))
    (steps : list string) : Async (list string) :=
  match entries with
  | [] => aret steps
  | (name, v) :: rest =>
      await res <- rcCall matPath (JStr "SetScalarParameterValue")
                     (Some [("ParameterName", JStr name); ("Value", JNum v)]);
      scalar_param_steps matPath rest
        (steps ++ [if ok res then name +:+ " = " +:+ pretty v
                   else "Warning: " +:+ name +:+ " failed ("
                        +:+ pretty (status res) +:+ ")"])
  end.

Fixpoint vector_param_steps (matPath : value) (entries : list (string * RGBA))
    (steps : list string) : Async (list string) :=
  match entries with
  | [] => aret steps
  | (name, v) :: rest =>
      await res <- rcCall matPath (JStr "SetVectorParameterValue")
                     (Some [("ParameterName", JStr name);
                            ("Value", JObj [("R", JNum (rgba_r v));
                                            ("G", JNum (rgba_g v));
                                            ("B", JNum (rgba_b v));
                                            ("A", JNum (rgba_a v))])]);
      vector_param_steps matPath rest
        (steps ++ [if ok res
                   then name +:+ " = (" +:+ pretty (rgba_r v) +:+ ", "
                        +:+ pretty (rgba_g v) +:+ ", " +:+ pretty (rgba_b v)
                        +:+ ", " +:+ pretty (rgba_a v) +:+ ")"
                   else "Warning: " +:+ name +:+ " failed ("
                        +:+ pretty (status res) +:+ ")"])
  end.

Definition material_report (a : DynamicMaterialArgs) (matPath : value)
    (steps : list string) : string :=
  "## Dynamic Material Created" +:+ nl +:+ nl +:+
  "- **Actor**: `" +:+ material_actor_path a +:+ "`" +:+ nl +:+
  "- **Material**: `" +:+ JS.toString matPath +:+ "`" +:+ nl +:+
  bullets steps.

Definition create_dynamic_material_try (a : DynamicMaterialArgs)
  : Async ToolResult :=
  let compPath := material_actor_path a +:+ "." +:+ material_component_name a in
  await createRes <- rcCall (JStr compPath) (JStr "CreateDynamicMaterialInstance")
                       (Some [("ElementIndex", JNum (slot_index a))]);
  if negb (ok createRes) then
    aret (errorResult ("CreateDynamicMaterialInstance failed (HTTP "
                       +:+ pretty (status createRes) +:+ "): "
                       +:+ JSON_stringify (data createRes)))
  else
    let matPath := JS.opt_get (data createRes) "ReturnValue" in
    if negb (JS.truthy matPath) then
      aret (errorResult "No material instance path returned.")
    else
      await steps <-
        scalar_param_steps matPath (default [] (scalar_params a))
          ["Created dynamic material: `" +:+ JS.toString matPath +:+ "`"];
      await steps <- vector_param_steps matPath (default [] (vector_params a)) steps;
      aret (textResult (material_report a matPath steps)).

Definition ue5_create_dynamic_material (a : DynamicMaterialArgs)
  : Async ToolResult :=
  try_catch (create_dynamic_material_try a) errorResult.

(** ** Requests and envelopes, for the statements below *)

Definition request_of (path method : string) (body : option value) : RcRequest :=
  {| req_url := baseUrl +:+ path; req_method := method; req_body := body |}.

Definition call_request (objectPath functionName : value)
    (parameters : option (list (string * value))) : RcRequest :=
  request_of "/remote/object/call" "PUT"
    (Some (call_body objectPath functionName parameters)).

(** The envelope [rcFetch] builds from an HTTP response. *)
Definition envelope_of (res : HttpResponse) : RcResponse :=
  {| ok := res_ok res;
     status := res_status res;
     data := default (JStr (res_text res)) (JSON_parse (res_text res)) |}.


(** ** The declared configuration steps of ue5_spawn_actor *)

Inductive StepKind : Type :=
  | MeshSet | Mobility | Simulate | Gravity | Label | Rotation | Scale.


Definition step_request (a : SpawnActorArgs) (actorPath : value) (k : StepKind)
  : RcRequest :=
  match k with
  | MeshSet =>
      call_request (JStr (meshComp actorPath)) (JStr "SetStaticMesh")
        (Some [("NewMesh", resolved_field (resolve ENGINE_MESHES (the (mesh a))))])
  | Mobility =>
      call_request (JStr (meshComp actorPath)) (JStr "SetMobility")
        (Some [("NewMobility", JStr "Movable")])
  | Simulate =>
      call_request (JStr (meshComp actorPath)) (JStr "SetSimulatePhysics")
        (Some [("bSimulate", JBool true)])
  | Gravity =>
      call_request (JStr (meshComp actorPath)) (JStr "SetEnableGravity")
        (Some [("bGravityEnabled", JBool true)])
  | Label =>
      call_request actorPath (JStr "SetActorLabel")
        (Some [("NewActorLabel", JStr (the (label a)))])
  | Rotation =>
      call_request actorPath (JStr "K2_SetActorRotation")
        (Some [("NewRotation", PitchYawRoll (default (mkRot 0 0 0) (rotation a)));
               ("bTeleportPhysics", JBool true)])
  | Scale =>
      call_request actorPath (JStr "SetActorScale3D")
        (Some [("NewScale3D", XYZ (default (mkVec3 1 1 1) (scale a)))])
  end.

(** The log entry of a step that succeeded. *)
Definition step_success (a : SpawnActorArgs) (k : StepKind) : string :=
  match k with
  | MeshSet => "Set mesh: " +:+ resolved_text (resolve ENGINE_MESHES (the (mesh a)))
  | Mobility => "Set mobility: Movable"
  | Simulate => "Enabled physics simulation"
  | Gravity => "Enabled gravity"
  | Label => "Set label: " +:+ dq +:+ the (label a) +:+ dq
  | Rotation =>
      let r := default (mkRot 0 0 0) (rotation a) in
      "Set rotation: pitch=" +:+ pretty (pitch r) +:+ " yaw=" +:+ pretty (yaw r)
      +:+ " roll=" +:+ pretty (roll r)
  | Scale =>
      let s := default (mkVec3 1 1 1) (scale a) in
      "Set scale: " +:+ pretty (vx s) +:+ ", " +:+ pretty (vy s) +:+ ", "
      +:+ pretty (vz s)
  end.

Definition step_what (k : StepKind) : string :=
  match k with
  | MeshSet => "set mesh"
  | Mobility => "set mobility"
  | Simulate => "enable physics"
  | Gravity => "enable gravity"
  | Label => "set label"
  | Rotation => "set rotation"
  | Scale => "set scale"
  end.

(** The log entry of a step, from the envelope of its call: the success
    line, or a warning carrying the status. *)
Definition step_entry (a : SpawnActorArgs) (k : StepKind) (res : RcResponse)
  : string :=
  if ok res then step_success a k
  else "Warning: Failed to " +:+ step_what k +:+ " (" +:+ pretty (status res)
       +:+ ")".

(** The primary request of ue5_spawn_actor. *)
Definition spawn_request (a : SpawnActorArgs) : RcRequest :=
  call_request (JStr EditorActorSubsystem) (JStr "SpawnActorFromClass")
    (Some (spawn_parameters (resolve ACTOR_CLASSES (actor_class a)) (location a))).

(** The function a request asks the editor to call. *)
Definition called_function (req : RcRequest) : value :=
  match req_body req with
  | Some body => JS.opt_get body "functionName"
  | None => JUndefined
  end.

(** ** Verdicts of a batch *)











Definition batch_request_of (ops : list BatchOp) : RcRequest :=
  request_of "/remote/batch" "PUT" (Some (batch_payload ops)).


(** The identifier [ue5_spawn_actor] reads from the primary response. *)
Definition actorPath_of (res : HttpResponse) : value :=
  JS.opt_get (data (envelope_of res)) "ReturnValue".

(** ** Sequences of logged calls *)

(** [rcFetch], on a request that is already built. *)
Definition send (req : RcRequest) : Async RcResponse :=
  fun tr =>
    match fetch tr req with
    | Responded res => (Return (envelope_of res), tr ++ [req])
    | AbortError =>
        (Throw ("Request to " +:+ req_url req +:+ " timed out after 10s"),
         tr ++ [req])
    | Rejected message =>
        (Throw ("Failed to connect to UE5 editor at " +:+ req_url req +:+ ": "
                +:+ message),
         tr ++ [req])
    end.

(** A call of a composite handler: the request it sends and what it
    pushes on the step log once the envelope is there. *)
Record LoggedCall : Type := mkLogged {
  lc_request : RcRequest;
  lc_log : RcResponse -> list string
}.

(** The calls, awaited one after the other. *)
Fixpoint run_calls (calls : list LoggedCall) (steps : list string)
  : Async (list string) :=
  match calls with
  | [] => aret steps
  | c :: rest =>
      await res <- send (lc_request c);
      run_calls rest (steps ++ lc_log c res)
  end.

(** [answered reqs tr envs tr']: sent one after the other from the trace
    [tr], the requests [reqs] are all answered, with the envelopes
    [envs], and leave the trace [tr']. *)
Inductive answered
  : list RcRequest -> list RcRequest -> list RcResponse -> list RcRequest -> Prop :=
  | answered_nil tr : answered [] tr [] tr
  | answered_cons req reqs tr res envs tr' :
      fetch tr req = Responded res ->
      answered reqs (tr ++ [req]) envs tr' ->
      answered (req :: reqs) tr (envelope_of res :: envs) tr'.

(** What the calls log, given their envelopes. *)
Definition log_of (calls : list LoggedCall) (envs : list RcResponse)
  : list string :=
  concat (zip_with lc_log calls envs).

(** The message [rcFetch] throws with when [fetch] rejects. *)
Definition failure_message (req : RcRequest) (o : FetchOutcome) : string :=
  match o with
  | Rejected message =>
      "Failed to connect to UE5 editor at " +:+ req_url req +:+ ": " +:+ message
  | _ => "Request to " +:+ req_url req +:+ " timed out after 10s"
  end.

Definition rejects (o : FetchOutcome) : Prop :=
  match o with Responded _ => False | _ => True end.

Definition property_request (objectPath propertyName : string)
    (propertyValue : value) : RcRequest :=
  request_of "/remote/object/property" "PUT"
    (Some (match propertyValue with
           | JUndefined =>
               JObj [("objectPath", JStr objectPath);
                     ("propertyName", JStr propertyName);
                     ("access", JStr "READ_ACCESS")]
           | _ =>
               JObj [("objectPath", JStr objectPath);
                     ("propertyName", JStr propertyName);
                     ("propertyValue", propertyValue)]
           end)).

(** ** The calls of ue5_spawn_actor and of ue5_modify_actor *)

Definition actor_call (a : SpawnActorArgs) (actorPath : value) (k : StepKind)
  : LoggedCall :=
  {| lc_request := step_request a actorPath k;
     lc_log := fun res => [step_entry a k res] |}.

Definition modify_property_call (a : ModifyActorArgs) (entry : string * value)
  : LoggedCall :=
  {| lc_request :=
       property_request (modify_actor_path a) (fst entry) (snd entry);
     lc_log := fun res =>
       [if ok res
        then fst entry +:+ " → " +:+ JSON_stringify (snd entry)
        else "Warning: Failed to set " +:+ fst entry +:+ " ("
             +:+ pretty (status res) +:+ ")"] |}.

Definition modify_calls (a : ModifyActorArgs) : list LoggedCall :=
  (if modify_location a is Some l then
     [{| lc_request :=
           call_request (JStr (modify_actor_path a)) (JStr "K2_SetActorLocation")
             (Some [("NewLocation", XYZ l); ("bSweep", JBool false);
                    ("bTeleport", JBool true)]);
         lc_log := fun res =>
           [if ok res
            then "Location → (" +:+ pretty (vx l) +:+ ", " +:+ pretty (vy l)
                 +:+ ", " +:+ pretty (vz l) +:+ ")"
            else "Warning: Failed to set location (" +:+ pretty (status res)
                 +:+ ")"] |}]
   else []) ++
  (if modify_rotation a is Some r then
     [{| lc_request :=
           call_request (JStr (modify_actor_path a)) (JStr "K2_SetActorRotation")
             (Some [("NewRotation", PitchYawRoll r);
                    ("bTeleportPhysics", JBool true)]);
         lc_log := fun res =>
           [if ok res
            then "Rotation → (" +:+ pretty (pitch r) +:+ ", " +:+ pretty (yaw r)
                 +:+ ", " +:+ pretty (roll r) +:+ ")"
            else "Warning: Failed to set rotation (" +:+ pretty (status res)
                 +:+ ")"] |}]
   else []) ++
  (if modify_scale a is Some s then
     [{| lc_request :=
           call_request (JStr (modify_actor_path a)) (JStr "SetActorScale3D")
             (Some [("NewScale3D", XYZ s)]);
         lc_log := fun res =>
           [if ok res
            then "Scale → (" +:+ pretty (vx s) +:+ ", " +:+ pretty (vy s)
                 +:+ ", " +:+ pretty (vz s) +:+ ")"
            else "Warning: Failed to set scale (" +:+ pretty (status res)
                 +:+ ")"] |}]
   else []) ++
  (if given (modify_label a) then
     [{| lc_request :=
           call_request (JStr (modify_actor_path a)) (JStr "SetActorLabel")
             (Some [("NewActorLabel", JStr (the (modify_label a)))]);
         lc_log := fun res =>
           [if ok res then "Label → " +:+ dq +:+ the (modify_label a) +:+ dq
            else "Warning: Failed to set label (" +:+ pretty (status res)
                 +:+ ")"] |}]
   else []) ++
  map (modify_property_call a) (default [] (modify_properties a)).

(** ** The requests of ue5_set_camera *)

Definition camera_get_request : RcRequest :=
  call_request (JStr UnrealEditorSubsystem) (JStr "GetLevelViewportCameraInfo")
    (Some []).

Definition camera_set_request (params : list (string * value)) : RcRequest :=
  call_request (JStr UnrealEditorSubsystem) (JStr "SetLevelViewportCameraInfo")
    (Some params).

(** ** The calls of ue5_create_dynamic_material and of ue5_spawn_light *)

Definition material_create_request (a : DynamicMaterialArgs) : RcRequest :=
  call_request
    (JStr (material_actor_path a +:+ "." +:+ material_component_name a))
    (JStr "CreateDynamicMaterialInstance")
    (Some [("ElementIndex", JNum (slot_index a))]).







(** The primary request of ue5_spawn_light. *)
Definition light_spawn_request (a : SpawnLightArgs) : RcRequest :=
  call_request (JStr EditorActorSubsystem) (JStr "SpawnActorFromClass")
    (Some [("ActorClass", opt_str (LIGHT_CLASSES !! light_type a));
           ("Location", XYZ (default (mkVec3 0 0 300) (light_location a)))]).


(** ** The other requests *)

Definition list_actors_request : RcRequest :=
  call_request (JStr EditorActorSubsystem) (JStr "GetAllLevelActors") None.

Definition delete_actor_request (actor_path : string) : RcRequest :=
  call_request (JStr EditorActorSubsystem) (JStr "DestroyActor")
    (Some [("ActorToDestroy", JStr actor_path)]).


Definition connect_request : RcRequest := request_of "/remote/info" "GET" None.



Definition describe_request (actor_path : string) : RcRequest :=
  request_of "/remote/object/describe" "PUT"
    (Some (JObj [("objectPath", JStr actor_path)])).

End Bridge.

(** ** A scripted editor, for the concrete runs *)

Module Demo.

(** [JSON.stringify] on values whose strings need no escaping. *)
Fixpoint stringify (v : value) : string :=
  match v with
  | JUndefined => "undefined"
  | JNull => "null"
  | JBool true => "true"
  | JBool false => "false"
  | JNum n => pretty n
  | JStr s => dq +:+ s +:+ dq
  | JArr items =>
      "[" +:+ String.concat ","
                (map (fun x => match x with
                               | JUndefined => "null"
                               | _ => stringify x
                               end) items) +:+ "]"
  | JObj fields =>
      "{" +:+ String.concat ","
                (flat_map (fun kv => match kv with
                                     | (_, JUndefined) => []
                                     | (k, x) => [dq +:+ k +:+ dq +:+ ":" +:+ stringify x]
                                     end) fields) +:+ "}"
  end.

Definition actor : string := "/Game/Main.Main:PersistentLevel.StaticMeshActor_0".
Definition light : string := "/Game/Main.Main:PersistentLevel.PointLight_0".

(** The bodies the scripted editor sends, with their parses. *)
Definition bodies : list (string * value) :=
  [("{}", JObj []);
   ("null", JNull);
   (stringify (JObj [("ReturnValue", JStr actor)]),
    JObj [("ReturnValue", JStr actor)]);
   (stringify (JObj [("ReturnValue", JStr light)]),
    JObj [("ReturnValue", JStr light)]);
   (stringify (JObj [("errorMessage", JStr "Object does not exist.")]),
    JObj [("errorMessage", JStr "Object does not exist.")])].

(** [JSON.parse] on those bodies; anything else is taken not to parse. *)
Definition parse_in (known : list (string * value)) (s : string) : option value :=
  snd <$> List.find (fun kv => String.eqb s (fst kv)) known.

(** An HTTP response; [ok] is set as the Fetch standard says. *)
Definition http (st : Z) (body : string) : FetchOutcome :=
  Responded (mkHttp ((200 <=? st) && (st <? 300)) st body).

(** The editor answers the n-th request of the trace with the n-th
    outcome of the script, and with [200 {}] once the script is over. *)
Definition scripted (script : list FetchOutcome)
  : list RcRequest -> RcRequest -> FetchOutcome :=
  fun tr _ => nth (length tr) script (http 200 "{}").

Definition platform (known : list (string * value)) (script : list FetchOutcome)
  : Platform :=
  {| cfg_host := "localhost"; cfg_port := 30010;
     fetch := scripted script;
     JSON_parse := parse_in (known ++ bodies);
     JSON_stringify := stringify |}.

Definition spawned : FetchOutcome :=
  http 200 (stringify (JObj [("ReturnValue", JStr actor)])).

(** Scenario A: a cube with physics and a label. *)
Definition box : SpawnActorArgs :=
  {| actor_class := "StaticMeshActor"; mesh := Some "Cube";
     label := Some "Box1"; location := None; rotation := None;
     scale := None; simulate_physics := true |}.


Definition not_found : string :=
  stringify (JObj [("errorMessage", JStr "Object does not exist.")]).

(** The editor has no such class. *)
Definition refusing_editor : Platform := platform [] [http 404 not_found].

(** The editor is up, and every call succeeds with an empty object. *)
Definition idle_editor : Platform := platform [] [].

(** Three operations, the second on a path that does not exist. *)
Definition three_ops : list BatchOp :=
  [mkOp OpCall "/Game/Main.Main:PersistentLevel.Box1" (Some "K2_DestroyActor")
     None None JUndefined;
   mkOp OpProperty "/Game/Main.Main:PersistentLevel.Nothing" None
     (Some "bHidden") None (JBool true);
   mkOp OpCall "/Game/Main.Main:PersistentLevel.Box2" (Some "K2_DestroyActor")
     None None JUndefined].









(** A point light with a label. *)
Definition lamp : SpawnLightArgs :=
  {| light_type := "PointLight"; light_location := None;
     light_rotation := None; light_label := Some "Key";
     intensity := 5000; color := None; attenuation_radius := None;
     inner_cone_angle := None; outer_cone_angle := None;
     cast_shadows := true |}.

(** The editor creates the light, refuses [SetIntensity], accepts
    [SetCastShadows] and refuses [SetActorLabel]. *)
Definition lamp_editor : Platform :=
  platform []
    [http 200 (stringify (JObj [("ReturnValue", JStr light)]));
     http 500 "{}"; http 200 "{}"; http 404 "{}"].


(** A move with a new label and one property. *)
Definition mover : ModifyActorArgs :=
  {| modify_actor_path := actor;
     modify_location := Some (mkVec3 100 0 50);
     modify_rotation := None; modify_scale := None;
     modify_label := Some "Crate";
     modify_properties := Some [("bHidden", JBool true)] |}.

(** An empty label and an empty property object. *)
Definition no_change : ModifyActorArgs :=
  {| modify_actor_path := actor;
     modify_location := None; modify_rotation := None; modify_scale := None;
     modify_label := Some EmptyString; modify_properties := Some [] |}.

(** The editor moves the actor, and is gone before the label is set. *)
Definition leaving_editor : Platform :=
  platform [] [http 200 "{}"; Rejected "fetch failed"].

(** The camera, as the editor reports it. *)
Definition camera : value :=
  JObj [("CameraLocation", JObj [("X", JNum 10); ("Y", JNum 20); ("Z", JNum 30)]);
        ("CameraRotation",
         JObj [("Pitch", JNum (-15)); ("Yaw", JNum 90); ("Roll", JNum 0)])].

Definition camera_editor : Platform :=
  platform [(stringify camera, camera)] [http 200 (stringify camera)].

(** The editor refuses to report the camera. *)
Definition blind_editor : Platform := platform [] [http 400 "{}"].

Definition look_from : SetCameraArgs :=
  {| camera_location := Some (mkVec3 0 0 500); camera_rotation := None |}.

Definition look_towards : SetCameraArgs :=
  {| camera_location := None; camera_rotation := Some (mkRot (-45) 0 0) |}.

Definition look : SetCameraArgs :=
  {| camera_location := Some (mkVec3 0 0 500);
     camera_rotation := Some (mkRot (-45) 0 0) |}.

Definition no_look : SetCameraArgs :=
  {| camera_location := None; camera_rotation := None |}.



Definition glow : DynamicMaterialArgs :=
  {| material_actor_path := actor; slot_index := 0;
     material_component_name := "StaticMeshComponent0";
     scalar_params := Some [("Roughness", 1)];
     vector_params := Some [("BaseColor", mkRGBA 1 0 0 1)] |}.


(** A spot light with every optional input. *)
Definition spot : SpawnLightArgs :=
  {| light_type := "SpotLight"; light_location := Some (mkVec3 0 0 400);
     light_rotation := Some (mkRot (-90) 0 0); light_label := Some "Spot";
     intensity := 8000; color := Some (mkRGB 255 240 200);
     attenuation_radius := Some 1200;
     inner_cone_angle := Some 20; outer_cone_angle := Some 40;
     cast_shadows := false |}.




(** A level whose list has a hole. *)
Definition holed_level : value :=
  JObj [("ReturnValue",
         JArr [JStr "/Game/Main.Main:PersistentLevel.StaticMeshActor_0"; JNull])].

Definition holed_editor : Platform :=
  platform [(stringify holed_level, holed_level)] [http 200 (stringify holed_level)].

Definition meshes_only : ListActorsArgs :=
  {| class_filter := Some "STATICMESH"; list_limit := 2 |}.




Definition props : SearchAssetsArgs :=
  {| search_query := "Props"; search_class_name := Some "StaticMesh";
     search_path := Some "/Game/Props"; search_limit := 2 |}.

(** Another service on the editor's port: a page that is not JSON. *)
Definition web_server : Platform := platform [] [http 200 "<html></html>"].

(** The editor answers with the body [null]. *)
Definition null_editor : Platform := platform [] [http 200 "null"].



(** The editor creates the actor, and every call after that succeeds. *)
Definition willing_editor : Platform := platform [] [spawned].



(** An actor class and a mesh named as members of [Object.prototype]. *)
Definition odd : SpawnActorArgs :=
  {| actor_class := "constructor"; mesh := Some "toString";
     label := None; location := None; rotation := None;
     scale := None; simulate_physics := false |}.


End Demo.

(** * Properties *)

Section Properties.

Context {platform : Platform}.

(** ** The HTTP client *)

Lemma rcFetch_responded path method body tr res :
  fetch tr (request_of path method body) = Responded res ->
  rcFetch path method body tr =
    (Return {| ok := res_ok res; status := res_status res;
               data := default (JStr (res_text res)) (JSON_parse (res_text res)) |},
     tr ++ [request_of path method body]).
Proof.
  intros H. unfold rcFetch. fold (request_of path method body). rewrite H.
  destruct (JSON_parse (res_text res)); reflexivity.
Qed.

(** C5.  Whenever [fetch] resolves with an HTTP response, [rcFetch]
    returns normally with an envelope that copies the response's status;
    its [ok] flag holds exactly for the statuses 200 to 299, so a
    response outside that range is an envelope with [ok = false] and not
    an exception; and its [data] is the parsed body, or the raw text
    when the body does not parse. *)
Theorem rcFetch_envelope path method body tr res :
  fetch tr (request_of path method body) = Responded res ->
  fetch_ok_spec res ->
  exists env,
    rcFetch path method body tr = (Return env, tr ++ [request_of path method body]) /\
    status env = res_status res /\
    (ok env = true <-> 200 <= status env < 300) /\
    (~ 200 <= res_status res < 300 -> ok env = false) /\
    (forall d, JSON_parse (res_text res) = Some d -> data env = d) /\
    (JSON_parse (res_text res) = None -> data env = JStr (res_text res)).
Proof.
  intros Hfetch Hspec. eexists. split; [apply rcFetch_responded, Hfetch |].
  cbn [ok status data]. split; [reflexivity |].
  split; [exact Hspec |]. split; [| split].
  - intros Hout. destruct (res_ok res) eqn:Hok; [| reflexivity].
    exfalso. apply Hout, Hspec, Hok.
  - intros d Hd. rewrite Hd. reflexivity.
  - intros Hd. rewrite Hd. reflexivity.
Qed.

(** ** The name resolver *)

Lemma resolve_unknown table t :
  table !! t = None -> inherited t = false -> resolve table t = Path t.
Proof. intros H Hown. unfold resolve. rewrite H, Hown. reflexivity. Qed.

Lemma resolve_inherited table t :
  table !! t = None -> inherited t = true -> resolve table t = Builtin t.
Proof. intros H Hin. unfold resolve. rewrite H, Hin. reflexivity. Qed.

Lemma ACTOR_CLASSES_paths t p :
  ACTOR_CLASSES !! t = Some p ->
  String.eqb p EmptyString = false /\ ACTOR_CLASSES !! p = None /\
  inherited p = false.
Proof.
  intros H. apply elem_of_list_to_map_2 in H.
  repeat (apply elem_of_cons in H as [H | H];
          [injection H as -> ->; repeat split; reflexivity |]).
  apply elem_of_nil in H. destruct H.
Qed.

Lemma ENGINE_MESHES_paths t p :
  ENGINE_MESHES !! t = Some p ->
  String.eqb p EmptyString = false /\ ENGINE_MESHES !! p = None /\
  inherited p = false.
Proof.
  intros H. apply elem_of_list_to_map_2 in H.
  repeat (apply elem_of_cons in H as [H | H];
          [injection H as -> ->; repeat split; reflexivity |]).
  apply elem_of_nil in H. destruct H.
Qed.

Lemma resolve_idempotent table t p :
  (forall q, table !! t = Some q ->
     String.eqb q EmptyString = false /\ table !! q = None /\
     inherited q = false) ->
  resolve table t = Path p -> resolve table p = Path p.
Proof.
  intros Hpaths. unfold resolve at 1.
  destruct (table !! t) as [q |] eqn:Ht.
  - destruct (Hpaths q eq_refl) as (Hne & Hq & Hown). rewrite Hne.
    intros [= <-]. apply resolve_unknown; assumption.
  - destruct (inherited t) eqn:Hin; [discriminate |].
    intros [= <-]. apply resolve_unknown; assumption.
Qed.

(** Apart from the names inherited from [Object.prototype], the
    resolver does what is expected of it: a token that is not a key of
    the table is returned unchanged, and a resolved path resolves to
    itself, for the actor classes and for the engine meshes. *)
Lemma resolve_own_names (t : string) :
  (ACTOR_CLASSES !! t = None -> inherited t = false ->
     resolve ACTOR_CLASSES t = Path t) /\
  (ENGINE_MESHES !! t = None -> inherited t = false ->
     resolve ENGINE_MESHES t = Path t) /\
  (forall p, resolve ACTOR_CLASSES t = Path p ->
     resolve ACTOR_CLASSES p = Path p) /\
  (forall p, resolve ENGINE_MESHES t = Path p ->
     resolve ENGINE_MESHES p = Path p).
Proof.
  split; [apply resolve_unknown |]. split; [apply resolve_unknown |].
  split; intros p.
  - apply resolve_idempotent, ACTOR_CLASSES_paths.
  - apply resolve_idempotent, ENGINE_MESHES_paths.
Qed.

(** ** The composite spawn *)

Lemma rcCall_responded objectPath functionName parameters tr res :
  fetch tr (call_request objectPath functionName parameters) = Responded res ->
  rcCall objectPath functionName parameters tr =
    (Return (envelope_of res),
     tr ++ [call_request objectPath functionName parameters]).
Proof. intros Hres. unfold rcCall. apply rcFetch_responded, Hres. Qed.

(** C3.  When the primary spawn call returns an envelope that is not
    ok, or an ok envelope without a usable [ReturnValue] (absent, or
    any other falsy value), [ue5_spawn_actor] returns an error result
    and the only request it has sent is the primary one: no mesh,
    physics, label, rotation or scale call is made. *)
Theorem spawn_actor_aborts a tr res :
  fetch tr (spawn_request a) = Responded res ->
  res_ok res = false \/ JS.truthy (actorPath_of res) = false ->
  exists message,
    ue5_spawn_actor a tr =
      (Return (errorResult message), tr ++ [spawn_request a]) /\
    isError (errorResult message) = true.
Proof.
  intros Hres Hfail.
  unfold ue5_spawn_actor, try_catch, spawn_actor_try, abind.
  unfold spawn_request in Hres.
  rewrite (rcCall_responded _ _ _ _ _ Hres).
  fold (spawn_request a). cbn [ok envelope_of].
  destruct (res_ok res) eqn:Hok; cbn [negb].
  - destruct Hfail as [Hfail | Hfail]; [discriminate |].
    fold (actorPath_of res). rewrite Hfail. cbn [negb].
    eexists. split; reflexivity.
  - eexists. split; reflexivity.
Qed.

(** ** The command registry *)


(** ** The batch translator *)








(** A batch whose call is answered with a response that is not ok is
    one error result. *)
Lemma batch_not_ok ops tr res :
  fetch tr (batch_request_of ops) = Responded res ->
  res_ok res = false ->
  ue5_batch ops tr =
    (Return (errorResult
               ("Batch request failed (HTTP " +:+ pretty (res_status res)
                +:+ "): " +:+ JSON_stringify (data (envelope_of res)))),
     tr ++ [batch_request_of ops]).
Proof.
  intros Hres Hok.
  unfold ue5_batch, try_catch, batch_try, abind.
  unfold batch_request_of in Hres. rewrite (rcFetch_responded _ _ _ _ _ Hres).
  cbn [ok data status]. rewrite Hok. reflexivity.
Qed.





(** ** Sequences of logged calls *)

Lemma rcFetch_send path method body tr :
  rcFetch path method body tr = send (request_of path method body) tr.
Proof.
  unfold rcFetch, send. fold (request_of path method body).
  destruct (fetch tr (request_of path method body)); reflexivity.
Qed.

Lemma rcCall_send objectPath functionName parameters tr :
  rcCall objectPath functionName parameters tr =
    send (call_request objectPath functionName parameters) tr.
Proof. unfold rcCall. apply rcFetch_send. Qed.

Lemma rcProperty_send objectPath propertyName propertyValue tr :
  rcProperty objectPath propertyName propertyValue tr =
    send (property_request objectPath propertyName propertyValue) tr.
Proof.
  unfold rcProperty, property_request.
  destruct propertyValue; apply rcFetch_send.
Qed.

Lemma abind_ext {A B} (m m' : Async A) (k k' : A -> Async B) tr :
  (forall tr, m tr = m' tr) ->
  (forall x tr, k x tr = k' x tr) ->
  abind m k tr = abind m' k' tr.
Proof.
  intros Hm Hk. unfold abind. rewrite Hm.
  destruct (m' tr) as [[x | message] tr']; [apply Hk | reflexivity].
Qed.

Lemma run_calls_app cs1 cs2 :
  forall steps tr,
    run_calls (cs1 ++ cs2) steps tr =
      abind (run_calls cs1 steps) (run_calls cs2) tr.
Proof.
  induction cs1 as [| c cs1 IH]; intros steps tr; simpl.
  - reflexivity.
  - unfold abind at 1 2 3.
    destruct (send (lc_request c) tr) as [[res | message] tr'];
      [apply IH | reflexivity].
Qed.

Lemma run_calls_answered cs :
  forall steps tr envs tr',
    answered (map lc_request cs) tr envs tr' ->
    run_calls cs steps tr = (Return (steps ++ log_of cs envs), tr').
Proof.
  induction cs as [| c cs IH]; intros steps tr envs tr' Hrun;
    inversion Hrun as [| req reqs tr0 res envs0 tr0' Hres Hrest]; subst; simpl.
  - rewrite app_nil_r. reflexivity.
  - unfold abind, send. rewrite Hres.
    rewrite (IH _ _ _ _ Hrest), <- app_assoc. reflexivity.
Qed.




Lemma send_rejects req tr :
  rejects (fetch tr req) ->
  send req tr = (Throw (failure_message req (fetch tr req)), tr ++ [req]).
Proof.
  unfold send, failure_message, rejects.
  destruct (fetch tr req); [intros [] | reflexivity | reflexivity].
Qed.

Lemma run_calls_interrupted cs1 c cs2 :
  forall steps tr envs tr1,
    answered (map lc_request cs1) tr envs tr1 ->
    rejects (fetch tr1 (lc_request c)) ->
    run_calls (cs1 ++ c :: cs2) steps tr =
      (Throw (failure_message (lc_request c) (fetch tr1 (lc_request c))),
       tr1 ++ [lc_request c]).
Proof.
  intros steps tr envs tr1 Hrun Hrej.
  rewrite run_calls_app. unfold abind at 1.
  rewrite (run_calls_answered _ _ _ _ _ Hrun). simpl. unfold abind.
  rewrite (send_rejects _ _ Hrej). reflexivity.
Qed.


(** ** ue5_spawn_actor, as a sequence of logged calls *)

Ltac by_send :=
  cbn [run_calls map app actor_call lc_request lc_log step_request
       default from_option id];
  unfold abind;
  repeat (rewrite ?rcCall_send, ?rcProperty_send;
          match goal with
          | |- context [send ?r ?t] =>
              destruct (send r t) as [[? | ?] ?]
          end;
          cbv beta iota delta [aret abind]);
  reflexivity.














(** ** ue5_modify_actor *)

Lemma modify_property_steps_calls a entries :
  forall steps tr,
    modify_property_steps (modify_actor_path a) entries steps tr =
      run_calls (map (modify_property_call a) entries) steps tr.
Proof.
  induction entries as [| [propName propValue] rest IH]; intros steps tr.
  - reflexivity.
  - cbn [modify_property_steps map run_calls modify_property_call
         lc_request lc_log fst snd].
    apply abind_ext; [intros; apply rcProperty_send |].
    intros res tr'. apply IH.
Qed.

Lemma modify_steps_calls a tr :
  (await steps <- modify_location_step a [];
   await steps <- modify_rotation_step a steps;
   await steps <- modify_scale_step a steps;
   await steps <- modify_label_step a steps;
   modify_properties_step a steps) tr =
  run_calls (modify_calls a) [] tr.
Proof.
  unfold modify_calls.
  rewrite run_calls_app. apply abind_ext.
  { intros. unfold modify_location_step.
    destruct (modify_location a); [by_send | reflexivity]. }
  intros. rewrite run_calls_app. apply abind_ext.
  { intros. unfold modify_rotation_step.
    destruct (modify_rotation a); [by_send | reflexivity]. }
  intros. rewrite run_calls_app. apply abind_ext.
  { intros. unfold modify_scale_step.
    destruct (modify_scale a); [by_send | reflexivity]. }
  intros. rewrite run_calls_app. apply abind_ext.
  { intros. unfold modify_label_step.
    destruct (given (modify_label a)); [by_send | reflexivity]. }
  intros. unfold modify_properties_step.
  destruct (modify_properties a); [apply modify_property_steps_calls | reflexivity].
Qed.

Lemma modify_actor_try_calls a tr :
  modify_actor_try a tr =
    abind (run_calls (modify_calls a) [])
      (fun steps =>
         if (length steps =? 0)%nat
         then aret (textResult "No modifications specified.")
         else aret (textResult (modify_report a steps))) tr.
Proof.
  unfold modify_actor_try.
  pose proof (modify_steps_calls a tr) as Hsteps.
  unfold abind in *.
  repeat match goal with
         | |- context [let (_, _) := ?m in _] =>
             lazymatch m with
             | run_calls _ _ _ => fail
             | _ => destruct m as [[? | ?] ?] eqn:?
             end
         end;
    rewrite <- Hsteps; repeat (cbv beta iota; try reflexivity).
Qed.



(** X3.  With no location, rotation or scale, no label (or an empty one) and
    no property, [ue5_modify_actor] sends nothing and says that nothing
    was specified, whatever the editor would have answered. *)
Theorem modify_actor_nothing a tr :
  modify_location a = None ->
  modify_rotation a = None ->
  modify_scale a = None ->
  given (modify_label a) = false ->
  default [] (modify_properties a) = [] ->
  ue5_modify_actor a tr =
    (Return (textResult "No modifications specified."), tr).
Proof.
  intros Hloc Hrot Hscale Hlabel Hprops.
  unfold ue5_modify_actor, try_catch. rewrite modify_actor_try_calls.
  unfold modify_calls. rewrite Hloc, Hrot, Hscale, Hlabel, Hprops.
  reflexivity.
Qed.

(** X4.  When a call of [ue5_modify_actor] times out or cannot connect after
    the calls before it were answered, the result is that one error:
    the modifications already sent are not reported and the remaining
    ones are not sent. *)
Theorem modify_actor_failure a tr cs1 c cs2 envs tr1 :
  modify_calls a = cs1 ++ c :: cs2 ->
  answered (map lc_request cs1) tr envs tr1 ->
  rejects (fetch tr1 (lc_request c)) ->
  ue5_modify_actor a tr =
    (Return (errorResult
               (failure_message (lc_request c) (fetch tr1 (lc_request c)))),
     tr1 ++ [lc_request c]).
Proof.
  intros Hcalls Hrun Hrej.
  unfold ue5_modify_actor, try_catch. rewrite modify_actor_try_calls.
  unfold abind. rewrite Hcalls.
  rewrite (run_calls_interrupted _ _ _ _ _ _ _ Hrun Hrej). reflexivity.
Qed.

(** ** ue5_set_camera *)

Lemma send_sends req tr : snd (send req tr) = tr ++ [req].
Proof. unfold send. destruct (fetch tr req); reflexivity. Qed.

Lemma send_responded req tr res :
  fetch tr req = Responded res ->
  send req tr = (Return (envelope_of res), tr ++ [req]).
Proof. intros Hres. unfold send. rewrite Hres. reflexivity. Qed.

(** X5.  [ue5_set_camera] asks the editor for the current camera only when
    exactly one of location and rotation is supplied: with neither it
    sends nothing and returns an error; with both it sends the one
    request that sets them; with one, the first request it sends reads
    the camera. *)
Theorem set_camera_requests a tr :
  (camera_location a = None -> camera_rotation a = None ->
     ue5_set_camera a tr =
       (Return (errorResult "Specify at least location or rotation."), tr)) /\
  (forall l r, camera_location a = Some l -> camera_rotation a = Some r ->
     snd (ue5_set_camera a tr) =
       tr ++ [camera_set_request [("CameraLocation", XYZ l);
                                  ("CameraRotation", PitchYawRoll r)]]) /\
  (supplied (camera_location a) <> supplied (camera_rotation a) ->
     exists rest, snd (ue5_set_camera a tr) = tr ++ camera_get_request :: rest).
Proof.
  unfold ue5_set_camera, try_catch, set_camera_try, camera_params.
  split; [| split].
  - intros -> ->. reflexivity.
  - intros l r -> ->. cbn [supplied negb andb orb app]. unfold abind.
    cbn [aret]. rewrite rcCall_send.
    pose proof (send_sends
                  (camera_set_request [("CameraLocation", XYZ l);
                                       ("CameraRotation", PitchYawRoll r)]) tr)
      as Hsent.
    unfold camera_set_request in *.
    destruct (send _ tr) as [[res | message] tr']; cbn [snd] in *; subst tr'.
    + destruct (ok res); reflexivity.
    + reflexivity.
  - intros Hone.
    assert (Hcases : negb (supplied (camera_location a))
                     && negb (supplied (camera_rotation a)) = false
                     /\ negb (supplied (camera_location a))
                        || negb (supplied (camera_rotation a)) = true).
    { destruct (supplied (camera_location a)), (supplied (camera_rotation a));
        try (exfalso; apply Hone; reflexivity); split; reflexivity. }
    destruct Hcases as [-> ->]. unfold abind. rewrite rcCall_send.
    fold camera_get_request.
    pose proof (send_sends camera_get_request tr) as Hget.
    destruct (send camera_get_request tr) as [[getRes | message] tr1];
      cbn [snd] in Hget; subst tr1.
    + cbn [aret]. rewrite rcCall_send.
      match goal with
      | |- context [send ?r ?t] =>
          pose proof (send_sends r t) as Hset;
          destruct (send r t) as [[res | message] tr2];
          cbn [snd] in Hset; subst tr2
      end.
      * destruct (ok res); cbn [negb aret snd]; rewrite <- app_assoc;
          eexists; reflexivity.
      * cbn [snd]. rewrite <- app_assoc. eexists. reflexivity.
    + exists []. reflexivity.
Qed.

(** X6.  With only one of location and rotation supplied, and a current
    camera that the editor reports, [ue5_set_camera] sets the supplied
    one as supplied and sends the other one back as the editor reported
    it: supplying a location keeps the current rotation, and supplying
    a rotation keeps the current location. *)
Theorem set_camera_keeps_current a tr res :
  fetch tr camera_get_request = Responded res ->
  res_ok res = true ->
  JS.truthy (data (envelope_of res)) = true ->
  (forall l,
     camera_location a = Some l -> camera_rotation a = None ->
     JS.truthy (JS.opt_get (data (envelope_of res)) "CameraRotation") = true ->
     snd (ue5_set_camera a tr) =
       tr ++ [camera_get_request;
              camera_set_request
                [("CameraLocation", XYZ l);
                 ("CameraRotation",
                  JS.opt_get (data (envelope_of res)) "CameraRotation")]]) /\
  (forall r,
     camera_location a = None -> camera_rotation a = Some r ->
     JS.truthy (JS.opt_get (data (envelope_of res)) "CameraLocation") = true ->
     snd (ue5_set_camera a tr) =
       tr ++ [camera_get_request;
              camera_set_request
                [("CameraRotation", PitchYawRoll r);
                 ("CameraLocation",
                  JS.opt_get (data (envelope_of res)) "CameraLocation")]]).
Proof.
  intros Hres Hok Hdata.
  unfold ue5_set_camera, try_catch, set_camera_try, camera_params, camera_fill.
  split.
  - intros l Hl Hr Hrot. rewrite Hl, Hr.
    cbn [supplied negb andb orb app]. unfold abind. rewrite rcCall_send.
    fold camera_get_request. rewrite (send_responded _ _ _ Hres).
    cbn [aret]. change (ok (envelope_of res)) with (res_ok res).
    rewrite Hok, Hdata, Hrot. cbn [andb app]. rewrite rcCall_send.
    match goal with
    | |- context [send ?r ?t] =>
        pose proof (send_sends r t) as Hset;
        destruct (send r t) as [[res' | message] tr2];
        cbn [snd] in Hset; subst tr2
    end; [destruct (ok res') |]; cbn [negb aret snd];
      rewrite <- app_assoc; reflexivity.
  - intros r Hl Hr Hloc. rewrite Hl, Hr.
    cbn [supplied negb andb orb app]. unfold abind. rewrite rcCall_send.
    fold camera_get_request. rewrite (send_responded _ _ _ Hres).
    cbn [aret]. change (ok (envelope_of res)) with (res_ok res).
    rewrite Hok, Hdata, Hloc. cbn [andb app]. rewrite rcCall_send.
    match goal with
    | |- context [send ?r ?t] =>
        pose proof (send_sends r t) as Hset;
        destruct (send r t) as [[res' | message] tr2];
        cbn [snd] in Hset; subst tr2
    end; [destruct (ok res') |]; cbn [negb aret snd];
      rewrite <- app_assoc; reflexivity.
Qed.

(** X7.  With only one of location and rotation supplied, a read of the
    current camera that the editor refuses (an answer that is not ok)
    does not stop [ue5_set_camera]: it still sets what was supplied,
    and sends nothing for the other one. *)
Theorem set_camera_after_failed_read a tr res :
  fetch tr camera_get_request = Responded res ->
  res_ok res = false ->
  supplied (camera_location a) <> supplied (camera_rotation a) ->
  snd (ue5_set_camera a tr) =
    tr ++ [camera_get_request; camera_set_request (camera_params a)].
Proof.
  intros Hres Hok Hone.
  unfold ue5_set_camera, try_catch, set_camera_try, camera_fill.
  assert (Hcases : negb (supplied (camera_location a))
                   && negb (supplied (camera_rotation a)) = false
                   /\ negb (supplied (camera_location a))
                      || negb (supplied (camera_rotation a)) = true).
  { destruct (supplied (camera_location a)), (supplied (camera_rotation a));
      try (exfalso; apply Hone; reflexivity); split; reflexivity. }
  destruct Hcases as [-> ->]. unfold abind. rewrite rcCall_send.
  fold camera_get_request. rewrite (send_responded _ _ _ Hres).
  cbn [aret]. change (ok (envelope_of res)) with (res_ok res).
  rewrite Hok. cbn [andb]. rewrite rcCall_send.
  fold (camera_set_request (camera_params a)).
  pose proof (send_sends (camera_set_request (camera_params a))
                (tr ++ [camera_get_request])) as Hset.
  destruct (send _ (tr ++ [camera_get_request])) as [[res' | message] tr2];
    cbn [snd] in Hset; subst tr2;
    [destruct (ok res') |]; cbn [negb aret snd];
    rewrite <- app_assoc; reflexivity.
Qed.

(** ** ue5_create_dynamic_material *)





(** ** ue5_spawn_light, as a sequence of logged calls *)








(** ** ue5_list_actors *)


Lemma filter_actors_throws filterLower items :
  Exists (fun v => forall s, v <> JStr s) items ->
  exists message, filter_actors filterLower items = Throw message.
Proof.
  induction 1 as [v rest Hv | v rest _ IH].
  - destruct v; cbn [filter_actors]; try (eexists; reflexivity).
    exfalso. eapply Hv. reflexivity.
  - destruct IH as [message IH].
    destruct v; cbn [filter_actors]; try (eexists; reflexivity).
    rewrite IH. eexists. reflexivity.
Qed.


(** X16.  With a class filter, one entry of the returned list that is not a
    string makes [ue5_list_actors] fail as a whole: the result is an
    error, and no actor is listed. *)
Theorem list_actors_filter_needs_strings a tr res items :
  fetch tr list_actors_request = Responded res ->
  res_ok res = true ->
  actorPath_of res = JArr items ->
  given (class_filter a) = true ->
  Exists (fun v => forall s, v <> JStr s) items ->
  exists message,
    ue5_list_actors a tr =
      (Return (errorResult message), tr ++ [list_actors_request]).
Proof.
  intros Hres Hok Hret Hgiven Hbad.
  destruct (filter_actors_throws (toLowerCase (the (class_filter a))) _ Hbad)
    as [message Hthrow].
  exists message.
  unfold ue5_list_actors, try_catch, list_actors_try, abind.
  unfold list_actors_request in Hres.
  rewrite (rcCall_responded _ _ _ _ _ Hres).
  cbn [ok envelope_of]. rewrite Hok. cbn [negb].
  fold (actorPath_of res). rewrite Hret.
  unfold lift, select_actors. cbn [JS.or JS.truthy].
  rewrite Hgiven, Hthrow. reflexivity.
Qed.


(** ** ue5_search_assets *)



(** X18.  The search request carries the query and the limit, and a filter
    only when a class name or a path is given; a path given with a class
    name is added to the class filter and does not replace it. *)
Theorem search_assets_filter a :
  JS.assoc "Query" (search_body a) = JStr (search_query a) /\
  JS.assoc "Limit" (search_body a) = JNum (Z.of_nat (search_limit a)) /\
  JS.assoc "Filter" (search_body a) =
    match given (search_class_name a), given (search_path a) with
    | false, false => JUndefined
    | true, false =>
        JObj [("ClassNames", JArr [JStr (the (search_class_name a))])]
    | false, true =>
        JObj [("PackagePaths", JArr [JStr (the (search_path a))])]
    | true, true =>
        JObj [("ClassNames", JArr [JStr (the (search_class_name a))]);
              ("PackagePaths", JArr [JStr (the (search_path a))])]
    end.
Proof.
  unfold search_body.
  destruct (given (search_class_name a)), (given (search_path a));
    repeat split; reflexivity.
Qed.


(** ** ue5_describe_actor *)





(** ** ue5_connect, ue5_delete_actor and ue5_get_camera *)

(** X21.  Any answer with a success status counts as a connection: when the
    body is not a JSON object or array, and so also when it is not JSON
    at all, [ue5_connect] reports the editor as connected, with the
    endpoint as the only detail. *)
Theorem connect_accepts_any_body tr res :
  fetch tr connect_request = Responded res ->
  res_ok res = true ->
  typeof_object (data (envelope_of res)) = false ->
  ue5_connect tr =
    (Return (textResult
               (("## UE5 Editor Connected" +:+ nl +:+ nl +:+
                 "- **Endpoint**: " +:+ cfg_host +:+ ":" +:+ pretty cfg_port
                 +:+ nl)
                +:+ nl +:+ "Remote Control API is active and responding.")),
     tr ++ [connect_request]).
Proof.
  intros Hres Hok Htype.
  unfold ue5_connect, try_catch, connect_try, abind.
  unfold connect_request in Hres.
  rewrite (rcFetch_responded _ _ _ _ _ Hres).
  cbn [ok data]. rewrite Hok. cbn [negb].
  change (default (JStr (res_text res)) (JSON_parse (res_text res)))
    with (data (envelope_of res)).
  rewrite Htype. reflexivity.
Qed.

(** X22.  When the editor answers with a success status and the body [null],
    [ue5_connect] returns an error: the body is taken for an object and
    its entries are asked for. *)
Theorem connect_null_body_fails tr res :
  fetch tr connect_request = Responded res ->
  res_ok res = true ->
  data (envelope_of res) = JNull ->
  ue5_connect tr =
    (Return (errorResult "Cannot convert undefined or null to object"),
     tr ++ [connect_request]).
Proof.
  intros Hres Hok Hnull.
  unfold ue5_connect, try_catch, connect_try, abind.
  unfold connect_request in Hres.
  rewrite (rcFetch_responded _ _ _ _ _ Hres).
  cbn [ok data]. rewrite Hok. cbn [negb].
  change (default (JStr (res_text res)) (JSON_parse (res_text res)))
    with (data (envelope_of res)).
  rewrite Hnull. reflexivity.
Qed.

(** X23.  [ue5_delete_actor] sends exactly one request and always returns a
    result; the result reports the deletion exactly when the editor
    answered with a success status, whatever the answer says about the
    actor. *)
Theorem delete_actor_reports_http_status actor_path tr :
  exists result,
    ue5_delete_actor actor_path tr =
      (Return result, tr ++ [delete_actor_request actor_path]) /\
    (isError result = false <->
       exists res, fetch tr (delete_actor_request actor_path) = Responded res /\
                   res_ok res = true) /\
    (isError result = false ->
       result = textResult ("Deleted actor: `" +:+ actor_path +:+ "`")).
Proof.
  unfold ue5_delete_actor, try_catch, delete_actor_try, abind.
  rewrite rcCall_send. fold (delete_actor_request actor_path).
  unfold send.
  destruct (fetch tr (delete_actor_request actor_path)) as [res | | message].
  - cbn [ok envelope_of]. destruct (res_ok res) eqn:Hok; cbn [negb aret];
      eexists; (split; [reflexivity |]); split.
    + split; [intros _; exists res; split; [reflexivity | exact Hok]
             | reflexivity].
    + reflexivity.
    + split; [discriminate |]. intros (res' & Hres' & Hok').
      injection Hres' as <-. congruence.
    + discriminate.
  - eexists. split; [reflexivity |]. split.
    + split; [discriminate |]. intros (res' & Hres' & _). discriminate.
    + discriminate.
  - eexists. split; [reflexivity |]. split.
    + split; [discriminate |]. intros (res' & Hres' & _). discriminate.
    + discriminate.
Qed.

(** X24.  When the editor's answer carries no camera location and no camera
    rotation, [ue5_get_camera] does not fail: it reports the camera at
    the origin with no rotation. *)
Theorem get_camera_defaults tr res :
  fetch tr camera_get_request = Responded res ->
  res_ok res = true ->
  JS.truthy (JS.opt_get (data (envelope_of res)) "CameraLocation") = false ->
  JS.truthy (JS.opt_get (data (envelope_of res)) "CameraRotation") = false ->
  ue5_get_camera tr =
    (Return (textResult
               ("## Current Viewport Camera" +:+ nl +:+ nl +:+
                "- **Location**: X=0 Y=0 Z=0" +:+ nl +:+
                "- **Rotation**: Pitch=0 Yaw=0 Roll=0" +:+ nl)),
     tr ++ [camera_get_request]).
Proof.
  intros Hres Hok Hloc Hrot.
  unfold ue5_get_camera, try_catch, get_camera_try, abind.
  unfold camera_get_request in Hres.
  rewrite (rcCall_responded _ _ _ _ _ Hres).
  cbn [ok data envelope_of]. rewrite Hok. cbn [negb aret].
  change (default (JStr (res_text res)) (JSON_parse (res_text res)))
    with (data (envelope_of res)).
  unfold get_camera_report, JS.or. rewrite Hloc, Hrot. reflexivity.
Qed.

(** ** Failed calls: warned about, or fatal *)




(** X10.  When the editor refuses to create the material instance, or returns
    no path for it, [ue5_create_dynamic_material] returns an error and
    sets no parameter: the creation call is the only request. *)
Theorem create_dynamic_material_aborts a tr res :
  fetch tr (material_create_request a) = Responded res ->
  res_ok res = false \/ JS.truthy (actorPath_of res) = false ->
  exists message,
    ue5_create_dynamic_material a tr =
      (Return (errorResult message), tr ++ [material_create_request a]).
Proof.
  intros Hres Hfail.
  unfold ue5_create_dynamic_material, try_catch, create_dynamic_material_try,
    abind.
  unfold material_create_request in Hres.
  rewrite (rcCall_responded _ _ _ _ _ Hres).
  fold (material_create_request a). cbn [ok envelope_of].
  destruct (res_ok res) eqn:Hok; cbn [negb].
  - destruct Hfail as [Hfail | Hfail]; [discriminate |].
    fold (actorPath_of res). rewrite Hfail. cbn [negb].
    eexists. reflexivity.
  - eexists. reflexivity.
Qed.

(** X13.  When the editor refuses to create the light, or returns no path for
    it, [ue5_spawn_light] returns an error and configures nothing: the
    spawn call is the only request. *)
Theorem spawn_light_aborts a tr res :
  fetch tr (light_spawn_request a) = Responded res ->
  res_ok res = false \/ JS.truthy (actorPath_of res) = false ->
  exists message,
    ue5_spawn_light a tr =
      (Return (errorResult message), tr ++ [light_spawn_request a]).
Proof.
  intros Hres Hfail.
  unfold ue5_spawn_light, try_catch, spawn_light_try, abind.
  unfold light_spawn_request in Hres.
  rewrite (rcCall_responded _ _ _ _ _ Hres).
  fold (light_spawn_request a). cbn [ok envelope_of].
  destruct (res_ok res) eqn:Hok; cbn [negb].
  - destruct Hfail as [Hfail | Hfail]; [discriminate |].
    fold (actorPath_of res). rewrite Hfail. cbn [negb].
    eexists. reflexivity.
  - eexists. reflexivity.
Qed.

(** ** Calls that get no answer *)




(** X25.  When the editor answers the describe request with a success
    status and the body [null], [ue5_describe_actor] returns an error:
    the name is read off the body before anything is reported. *)
Theorem describe_actor_null_body actor_path tr res :
  fetch tr (describe_request actor_path) = Responded res ->
  res_ok res = true ->
  data (envelope_of res) = JNull ->
  ue5_describe_actor actor_path tr =
    (Return (errorResult "Cannot read properties of null (reading 'Name')"),
     tr ++ [describe_request actor_path]).
Proof.
  intros Hres Hok Hnull.
  unfold ue5_describe_actor, try_catch, describe_actor_try, abind.
  unfold describe_request in Hres.
  rewrite (rcFetch_responded _ _ _ _ _ Hres).
  cbn [ok data]. rewrite Hok. cbn [negb].
  change (default (JStr (res_text res)) (JSON_parse (res_text res)))
    with (data (envelope_of res)).
  rewrite Hnull. reflexivity.
Qed.

End Properties.

(** * Concrete runs *)





(** The editor has no such class: one request, one error. *)
Lemma spawn_actor_aborts_witness :
  exists message,
    @ue5_spawn_actor Demo.refusing_editor Demo.box [] =
      (Return (errorResult message), [@spawn_request Demo.refusing_editor Demo.box]) /\
    isError (errorResult message) = true.
Proof.
  apply (@spawn_actor_aborts Demo.refusing_editor Demo.box []
           (mkHttp false 404 Demo.not_found)).
  - reflexivity.
  - left. reflexivity.
Defined.



(** Scenario C: a 404 with a JSON error body. *)
Lemma rcFetch_envelope_witness :
  exists env,
    @rcFetch Demo.refusing_editor "/remote/object/describe" "PUT" None [] =
      (Return env,
       [@request_of Demo.refusing_editor "/remote/object/describe" "PUT" None]) /\
    status env = 404 /\
    ok env = false /\
    data env = JObj [("errorMessage", JStr "Object does not exist.")].
Proof.
  destruct (@rcFetch_envelope Demo.refusing_editor "/remote/object/describe"
              "PUT" None [] (mkHttp false 404 Demo.not_found))
    as (env & Hrun & Hstatus & _ & Hnot & Hdata & _).
  - reflexivity.
  - unfold fetch_ok_spec. cbn [res_ok res_status]. split; [discriminate | lia].
  - exists env. split; [exact Hrun |]. split; [exact Hstatus |].
    split; [apply Hnot; cbn [res_status]; lia |].
    apply Hdata. reflexivity.
Defined.


(** The handler alone, on a name the table inherits: the guard lets
    the member of [Object.prototype] through, a call without object
    path and function name is sent, and the description echoed is
    [undefined].  The input schema keeps such a name away from the
    handler. *)
Lemma editor_command_inherited_name :
  @ue5_editor_command Demo.idle_editor "constructor" [] =
    (Return (textResult "Executed: **undefined**"),
     [@call_request Demo.idle_editor JUndefined JUndefined None]).
Proof. vm_compute. reflexivity. Qed.







(** A [null] entry in the response list: reading its [RequestId]
    throws, and the handler returns that error instead of a report. *)
Lemma batch_null_entry_throws :
  @ue5_batch
     (Demo.platform [("[null]", JArr [JNull])] [Demo.http 200 "[null]"])
     Demo.three_ops [] =
    (Return (errorResult TypeError_RequestId),
     [@batch_request_of Demo.idle_editor Demo.three_ops]).
Proof. vm_compute. reflexivity. Qed.

(** ** The name resolver *)

(** C6, on the name resolver.  [constructor] is not a key of
    [ACTOR_CLASSES] and [toString] is not a key of [ENGINE_MESHES], yet
    neither passes through: the lookup finds the functions the tables
    inherit from [Object.prototype].  [ue5_spawn_actor] then asks the
    editor for an actor without a class and for a mesh without a path,
    and its log shows the source text of the two functions where the
    tokens should be. *)
Theorem resolve_inherited_name :
  ACTOR_CLASSES !! "constructor" = None /\
  resolve ACTOR_CLASSES "constructor" = Builtin "constructor" /\
  resolve ACTOR_CLASSES "constructor" <> Path "constructor" /\
  ENGINE_MESHES !! "toString" = None /\
  resolve ENGINE_MESHES "toString" = Builtin "toString" /\
  resolve ENGINE_MESHES "toString" <> Path "toString" /\
  exists spawn set_mesh,
    @ue5_spawn_actor Demo.willing_editor Demo.odd [] =
      (Return (textResult
                 (String.concat nl
                    ["## Actor Spawned";
                     EmptyString;
                     "- **Path**: `" +:+ Demo.actor +:+ "`";
                     "- Spawned `function Object() { [native code] }` → `"
                     +:+ Demo.actor +:+ "`";
                     "- Set mesh: function toString() { [native code] }"])),
       [@call_request Demo.willing_editor (JStr EditorActorSubsystem)
          (JStr "SpawnActorFromClass") (Some spawn);
        @call_request Demo.willing_editor
          (JStr (Demo.actor +:+ ".StaticMeshComponent0"))
          (JStr "SetStaticMesh") (Some set_mesh)]) /\
    JS.assoc "ActorClass" spawn <> JStr "constructor" /\
    JS.assoc "NewMesh" set_mesh <> JStr "toString" /\
    Demo.stringify (JObj set_mesh) = "{}".
Proof.
  repeat (split; [first [reflexivity | discriminate] |]).
  do 2 eexists. split; [vm_compute; reflexivity |].
  split; [discriminate |]. split; [discriminate | reflexivity].
Qed.

(** ** The light composite *)

(** C9, on the light composite.  The editor refuses [SetIntensity]
    (500) and [SetActorLabel] (404).  The report of [ue5_spawn_light]
    is not an error and has three entries: the spawn, the shadows, and
    the label as if it had been set.  The refused intensity call is not
    mentioned, and no entry is a warning. *)
Theorem spawn_light_hides_failed_steps :
  exists r0 r1 r2 r3,
    @ue5_spawn_light Demo.lamp_editor Demo.lamp [] =
      (Return (textResult
                 (light_report (JStr Demo.light)
                    ["Spawned PointLight → `" +:+ Demo.light +:+ "`";
                     "Cast shadows: true";
                     "Label: " +:+ dq +:+ "Key" +:+ dq])),
       [r0; r1; r2; r3]) /\
    called_function r1 = JStr "SetIntensity" /\
    @fetch Demo.lamp_editor [r0] r1 = Demo.http 500 "{}" /\
    called_function r3 = JStr "SetActorLabel" /\
    @fetch Demo.lamp_editor [r0; r1; r2] r3 = Demo.http 404 "{}".
Proof.
  do 4 eexists. split; [vm_compute; reflexivity |].
  repeat split.
Qed.

(** ** Concrete runs of the other handlers *)




(** An empty label and an empty property object ask for nothing. *)
Lemma modify_actor_nothing_witness :
  @ue5_modify_actor Demo.idle_editor Demo.no_change [] =
    (Return (textResult "No modifications specified."), []).
Proof.
  apply (@modify_actor_nothing Demo.idle_editor Demo.no_change []);
    reflexivity.
Defined.

(** The actor is moved and the editor is gone: the label and the
    property are not sent. *)
Lemma modify_actor_failure_witness :
  @ue5_modify_actor Demo.leaving_editor Demo.mover [] =
    (Return (errorResult
               "Failed to connect to UE5 editor at http://localhost:30010/remote/object/call: fetch failed"),
     take 2 (map lc_request (@modify_calls Demo.leaving_editor Demo.mover))).
Proof.
  refine (eq_trans
            (@modify_actor_failure Demo.leaving_editor Demo.mover []
               [_] _ [_] _ _ _ _ _) _).
  - reflexivity.
  - eapply answered_cons; [reflexivity | apply answered_nil].
  - exact I.
  - reflexivity.
Defined.

(** Neither input: no request.  Both inputs: one request, the update.
    The location alone: the camera is read first. *)
Lemma set_camera_requests_witness :
  @ue5_set_camera Demo.idle_editor Demo.no_look [] =
    (Return (errorResult "Specify at least location or rotation."), []) /\
  snd (@ue5_set_camera Demo.idle_editor Demo.look []) =
    [@camera_set_request Demo.idle_editor
       [("CameraLocation", XYZ (mkVec3 0 0 500));
        ("CameraRotation", PitchYawRoll (mkRot (-45) 0 0))]] /\
  exists rest,
    snd (@ue5_set_camera Demo.idle_editor Demo.look_from []) =
      @camera_get_request Demo.idle_editor :: rest.
Proof.
  split; [| split].
  - apply (@set_camera_requests Demo.idle_editor Demo.no_look []); reflexivity.
  - apply (proj1 (proj2 (@set_camera_requests Demo.idle_editor Demo.look [])));
      reflexivity.
  - apply (proj2 (proj2 (@set_camera_requests Demo.idle_editor Demo.look_from []))).
    discriminate.
Defined.

(** A new location keeps the rotation the editor reports, and a new
    rotation keeps the location it reports. *)
Lemma set_camera_keeps_current_witness :
  snd (@ue5_set_camera Demo.camera_editor Demo.look_from []) =
    [@camera_get_request Demo.camera_editor;
     @camera_set_request Demo.camera_editor
       [("CameraLocation", XYZ (mkVec3 0 0 500));
        ("CameraRotation", PitchYawRoll (mkRot (-15) 90 0))]] /\
  snd (@ue5_set_camera Demo.camera_editor Demo.look_towards []) =
    [@camera_get_request Demo.camera_editor;
     @camera_set_request Demo.camera_editor
       [("CameraRotation", PitchYawRoll (mkRot (-45) 0 0));
        ("CameraLocation", XYZ (mkVec3 10 20 30))]].
Proof.
  split.
  - apply (proj1 (@set_camera_keeps_current Demo.camera_editor Demo.look_from []
                    (mkHttp true 200 (Demo.stringify Demo.camera))
                    eq_refl eq_refl eq_refl) (mkVec3 0 0 500));
      reflexivity.
  - apply (proj2 (@set_camera_keeps_current Demo.camera_editor Demo.look_towards []
                    (mkHttp true 200 (Demo.stringify Demo.camera))
                    eq_refl eq_refl eq_refl) (mkRot (-45) 0 0));
      reflexivity.
Defined.

(** The camera cannot be read: the update is sent all the same, with
    the location alone. *)
Lemma set_camera_after_failed_read_witness :
  snd (@ue5_set_camera Demo.blind_editor Demo.look_from []) =
    [@camera_get_request Demo.blind_editor;
     @camera_set_request Demo.blind_editor
       [("CameraLocation", XYZ (mkVec3 0 0 500))]].
Proof.
  apply (@set_camera_after_failed_read Demo.blind_editor Demo.look_from []
           (mkHttp false 400 "{}")).
  - reflexivity.
  - reflexivity.
  - discriminate.
Defined.




(** The component does not exist: one request, one error. *)
Lemma create_dynamic_material_aborts_witness :
  exists message,
    @ue5_create_dynamic_material Demo.refusing_editor Demo.glow [] =
      (Return (errorResult message),
       [@material_create_request Demo.refusing_editor Demo.glow]).
Proof.
  apply (@create_dynamic_material_aborts Demo.refusing_editor Demo.glow []
           (mkHttp false 404 Demo.not_found)).
  - reflexivity.
  - left. reflexivity.
Defined.



(** The editor has no such class: one request, one error. *)
Lemma spawn_light_aborts_witness :
  exists message,
    @ue5_spawn_light Demo.refusing_editor Demo.spot [] =
      (Return (errorResult message),
       [@light_spawn_request Demo.refusing_editor Demo.spot]).
Proof.
  apply (@spawn_light_aborts Demo.refusing_editor Demo.spot []
           (mkHttp false 404 Demo.not_found)).
  - reflexivity.
  - left. reflexivity.
Defined.


(** A [null] in the list, and a filter: the listing fails. *)
Lemma list_actors_filter_needs_strings_witness :
  exists message,
    @ue5_list_actors Demo.holed_editor Demo.meshes_only [] =
      (Return (errorResult message), [@list_actors_request Demo.holed_editor]).
Proof.
  apply (@list_actors_filter_needs_strings Demo.holed_editor Demo.meshes_only []
           (mkHttp true 200 (Demo.stringify Demo.holed_level))
           [JStr "/Game/Main.Main:PersistentLevel.StaticMeshActor_0"; JNull]).
  - reflexivity.
  - reflexivity.
  - reflexivity.
  - reflexivity.
  - apply Exists_cons_tl, Exists_cons_hd. discriminate.
Defined.




(** A web page on the editor's port counts as a connection. *)
Lemma connect_accepts_any_body_witness :
  @ue5_connect Demo.web_server [] =
    (Return (textResult
               ("## UE5 Editor Connected" +:+ nl +:+ nl +:+
                "- **Endpoint**: localhost:30010" +:+ nl +:+ nl +:+
                "Remote Control API is active and responding.")),
     [@connect_request Demo.web_server]).
Proof.
  apply (@connect_accepts_any_body Demo.web_server []
           (mkHttp true 200 "<html></html>"));
    reflexivity.
Defined.

(** The body [null] does not. *)
Lemma connect_null_body_fails_witness :
  @ue5_connect Demo.null_editor [] =
    (Return (errorResult "Cannot convert undefined or null to object"),
     [@connect_request Demo.null_editor]).
Proof.
  apply (@connect_null_body_fails Demo.null_editor []
           (mkHttp true 200 "null"));
    reflexivity.
Defined.

(** An empty answer: the camera is reported at the origin. *)
Lemma get_camera_defaults_witness :
  @ue5_get_camera Demo.idle_editor [] =
    (Return (textResult
               ("## Current Viewport Camera" +:+ nl +:+ nl +:+
                "- **Location**: X=0 Y=0 Z=0" +:+ nl +:+
                "- **Rotation**: Pitch=0 Yaw=0 Roll=0" +:+ nl)),
     [@camera_get_request Demo.idle_editor]).
Proof.
  apply (@get_camera_defaults Demo.idle_editor [] (mkHttp true 200 "{}"));
    reflexivity.
Defined.



(** The body [null] cannot be described. *)
Lemma describe_actor_null_body_witness :
  @ue5_describe_actor Demo.null_editor Demo.actor [] =
    (Return (errorResult "Cannot read properties of null (reading 'Name')"),
     [@describe_request Demo.null_editor Demo.actor]).
Proof.
  apply (@describe_actor_null_body Demo.null_editor Demo.actor []
           (mkHttp true 200 "null"));
    reflexivity.
Defined.
